(** * Gouef/router: route registration, handler adaptation, URL generation
      and error interception, verified over a shallow embedding of
      [router.go].

    Layout:
    - [Reflect]: the part of Go's [reflect] that [createHandlerFunc] uses;
    - [Gin]: the contract of the underlying server (gin) that the router
      calls into: response writer, handler chains, path joining, groups,
      the no-route hook, serving;
    - [Method], [Route], [RouteList], which [router.go] takes from other
      files of the package;
    - the router itself, function by function, in the order of the source;
    - the properties, first for every decoder and printer, then on the
      routers of the repository's tests. *)

From Stdlib Require Import ZArith String Ascii List Numbers.DecimalString.
From stdpp Require Import base option list gmap strings.
From Equations Require Import Equations.

Set Warnings "-register-all".

Local Open Scope string_scope.
Local Open Scope Z_scope.
Local Open Scope list_scope.

(* ===================================================================== *)
(** ** Go's [reflect], as far as the handler adapter looks at it          *)
(* ===================================================================== *)

Module Reflect.

(** [reflect.Kind]. *)
Inductive Kind := KBool | KInt | KString | KStruct | KPtr | KFunc | KInterface.

(** [Kind.String]. *)
Definition Kind_String (k : Kind) : string :=
  match k with
  | KBool => "bool" | KInt => "int" | KString => "string"
  | KStruct => "struct" | KPtr => "ptr" | KFunc => "func"
  | KInterface => "interface"
  end.

(** A struct field with its [uri:"..."] tag and [binding:"required"]. *)
Inductive FieldTy := FBool | FInt | FString.

Record Field := {
  fieldName : string;
  fieldTy : FieldTy;
  uriTag : string;
  required : bool
}.

(** [reflect.Type]. [TContext] is [gin.Context]; a handler's first
    parameter is [TPtr TContext]. *)
Inductive Ty :=
| TBool | TInt | TString
| TContext
| TInterface
| TStruct (fields : list Field)
| TPtr (elem : Ty)
| TFunc (ins : list Ty).

Definition kindOf (t : Ty) : Kind :=
  match t with
  | TBool => KBool | TInt => KInt | TString => KString
  | TContext => KStruct
  | TInterface => KInterface
  | TStruct _ => KStruct
  | TPtr _ => KPtr
  | TFunc _ => KFunc
  end.

(** [Type.NumIn]; the source only calls it behind the [Func] test (Go
    panics on other kinds). *)
Definition NumIn (t : Ty) : nat :=
  match t with TFunc ins => length ins | _ => 0%nat end.

(** [Type.In(i)]. *)
Definition In_ (t : Ty) (i : nat) : option Ty :=
  match t with TFunc ins => ins !! i | _ => None end.

(** Go values the handlers receive. [VContext] stands for the
    [*gin.Context] argument: the context itself is threaded through the
    handler as state. *)
Inductive Value :=
| VNil
| VBool (b : bool)
| VInt (z : Z)
| VString (s : string)
| VStruct (fields : list (string * Value))
| VPtr (target : Value)
| VContext.

Definition zeroField (f : FieldTy) : Value :=
  match f with FBool => VBool false | FInt => VInt 0 | FString => VString "" end.

(** The zero value [reflect.New(t)] points to. *)
Definition zero (t : Ty) : Value :=
  match t with
  | TBool => VBool false
  | TInt => VInt 0
  | TString => VString ""
  | TStruct fs => VStruct (map (fun f => (fieldName f, zeroField (fieldTy f))) fs)
  | TContext => VStruct []
  | TInterface | TPtr _ | TFunc _ => VNil
  end.

(** Whether a [*gin.Context] argument is assignable to a parameter of
    type [t] (what [Value.Call] checks for the first argument). *)
Definition acceptsContext (t : Ty) : bool :=
  match t with
  | TPtr TContext => true
  | TInterface => true
  | _ => false
  end.

End Reflect.

Import Reflect.

(* ===================================================================== *)
(** ** The underlying server (gin), as the router uses it                 *)
(* ===================================================================== *)

Module Gin.

(** [gin.H]: a JSON object, key by key. *)
Definition H := list (string * Value).

(** What has been written to the response body. *)
Inductive Chunk :=
| ChunkJSON (obj : H)
| ChunkText (s : string).

(** [gin.Context] with its response writer. [handlerCalls] is
    bookkeeping of the model: the number of times [reflect.Value.Call]
    entered a registered handler during this request. *)
Record Context := {
  Params : list (string * string);
  status : Z;
  written : bool;
  body : list Chunk;
  handlerCalls : nat
}.

(** A context as the engine hands it to the first handler. *)
Definition newContext (params : list (string * string)) : Context :=
  {| Params := params; status := 200; written := false; body := [];
     handlerCalls := 0 |}.

(** A handler either returns, leaving the context, or panics. *)
Inductive Outcome :=
| Returned (c : Context)
| Panicked (msg : string).

Definition bind (o : Outcome) (k : Context -> Outcome) : Outcome :=
  match o with
  | Returned c => k c
  | Panicked msg => Panicked msg
  end.

Definition isPanic (o : Outcome) : bool :=
  match o with Panicked _ => true | Returned _ => false end.

(** [ResponseWriter.WriteHeader]: the status changes only while nothing
    has been written. *)
Definition WriteHeader (code : Z) (c : Context) : Context :=
  if (0 <? code) && negb (status c =? code) && negb (written c)
  then {| Params := Params c; status := code; written := written c;
          body := body c; handlerCalls := handlerCalls c |}
  else c.

Definition bodyAllowedForStatus (code : Z) : bool :=
  negb ((100 <=? code) && (code <=? 199)) && negb (code =? 204) && negb (code =? 304).

Definition write (ch : list Chunk) (c : Context) : Context :=
  {| Params := Params c; status := status c; written := true;
     body := body c ++ ch; handlerCalls := handlerCalls c |}.

(** [c.JSON(code, obj)]. *)
Definition JSON (code : Z) (obj : H) (c : Context) : Context :=
  let c1 := WriteHeader code c in
  if bodyAllowedForStatus code then write [ChunkJSON obj] c1 else write [] c1.

(** A [gin.HandlerFunc] in a chain. Its first argument is [c.Next]: the
    handlers that follow it in the chain. *)
Definition HandlerFunc := (Context -> Outcome) -> Context -> Outcome.

(** A handler that never calls [c.Next]: the engine's loop runs the rest
    of the chain once it returns. *)
Definition plain (f : Context -> Outcome) : HandlerFunc :=
  fun next c => bind (f c) next.

Fixpoint runChain (hs : list HandlerFunc) (c : Context) : Outcome :=
  match hs with
  | [] => Returned c
  | h :: rest => h (runChain rest) c
  end.

(** *** Paths *)

(** [strings.Split(s, sep)] for a one-character separator; [cur] is the
    component being read. *)
Fixpoint splitOn (sep : ascii) (s : string) (cur : string) : list string :=
  match s with
  | EmptyString => [cur]
  | String ch rest =>
      if Ascii.eqb ch sep then cur :: splitOn sep rest ""
      else splitOn sep rest (cur +:+ String ch "")
  end.

Definition slash : ascii := "/"%char.

(** One step of [path.Clean] over the components read so far (innermost
    first): empty and [.] components vanish, [..] removes the component
    before it, or stays when there is none and the path is relative. *)
Definition cleanStep (rooted : bool) (stack : list string) (comp : string)
  : list string :=
  if String.eqb comp "" || String.eqb comp "." then stack
  else if String.eqb comp ".." then
    match stack with
    | top :: below => if String.eqb top ".." then comp :: stack else below
    | [] => if rooted then [] else [comp]
    end
  else comp :: stack.

Fixpoint joinWith (sep : string) (l : list string) : string :=
  match l with
  | [] => ""
  | [x] => x
  | x :: rest => x +:+ sep +:+ joinWith sep rest
  end.

Definition isRooted (p : string) : bool :=
  match p with String ch _ => Ascii.eqb ch slash | EmptyString => false end.

(** Go's [path.Clean]. *)
Definition Clean (p : string) : string :=
  let rooted := isRooted p in
  let comps := rev (fold_left (cleanStep rooted) (splitOn slash p "") []) in
  let out := (if rooted then "/" else "") +:+ joinWith "/" comps in
  if String.eqb out "" then "." else out.

(** Go's [path.Join] of two elements: empty elements are ignored. *)
Definition pathJoin (a b : string) : string :=
  if String.eqb a "" then (if String.eqb b "" then "" else Clean b)
  else if String.eqb b "" then Clean a
  else Clean (a +:+ "/" +:+ b).

Fixpoint lastChar (s : string) : option ascii :=
  match s with
  | EmptyString => None
  | String ch EmptyString => Some ch
  | String _ rest => lastChar rest
  end.

Definition endsWithSlash (s : string) : bool :=
  match lastChar s with Some ch => Ascii.eqb ch slash | None => false end.

(** gin's [joinPaths(absolutePath, relativePath)]: an empty relative path
    contributes nothing; a trailing slash of the relative path is kept. *)
Definition joinPaths (absolutePath relativePath : string) : string :=
  if String.eqb relativePath "" then absolutePath
  else
    let finalPath := pathJoin absolutePath relativePath in
    if endsWithSlash relativePath && negb (endsWithSlash finalPath)
    then finalPath +:+ "/" else finalPath.




(** *** Engine, groups, registration *)

(** One entry of the engine's routing table: [engine.addRoute(method,
    absolutePath, handlers)]. *)
Record RouteInfo := {
  ri_method : string;
  ri_path : string;
  ri_handlers : list HandlerFunc
}.

(** [gin.Engine]: its own group ([basePath], [Handlers]), the no-route
    hook with the chain built from it, and the routing table in
    registration order. [addRoute] below is the table after a
    registration that gin accepts; gin's own rejections (a pattern
    without leading slash, a repeated verb and path, a conflicting
    wildcard) are panics inside gin: [tryAddRoute] adds the verdict. *)
Record Engine := {
  basePath : string;
  Handlers : list HandlerFunc;
  noRoute : list HandlerFunc;
  allNoRoute : list HandlerFunc;
  trees : list RouteInfo
}.

(** [gin.RouterGroup], as returned by [Group]. *)
Record RouterGroup := {
  g_basePath : string;
  g_Handlers : list HandlerFunc
}.

(** [gin.New()]. *)
Definition New : Engine :=
  {| basePath := "/"; Handlers := []; noRoute := []; allNoRoute := [];
     trees := [] |}.

(** [engine.Group(relativePath)]. *)
Definition Group (e : Engine) (relativePath : string) : RouterGroup :=
  {| g_basePath := joinPaths (basePath e) relativePath;
     g_Handlers := Handlers e |}.

Definition addRoute (ri : RouteInfo) (e : Engine) : Engine :=
  {| basePath := basePath e; Handlers := Handlers e; noRoute := noRoute e;
     allNoRoute := allNoRoute e; trees := trees e ++ [ri] |}.

(** [group.Handle(method, relativePath, handler)]. *)
Definition groupHandle (g : RouterGroup) (method relativePath : string)
    (h : HandlerFunc) (e : Engine) : Engine :=
  addRoute {| ri_method := method;
              ri_path := joinPaths (g_basePath g) relativePath;
              ri_handlers := g_Handlers g ++ [h] |} e.

(** [engine.Handle(method, relativePath, handler)]: the engine's own
    group. *)
Definition Handle (method relativePath : string) (h : HandlerFunc)
    (e : Engine) : Engine :=
  groupHandle {| g_basePath := basePath e; g_Handlers := Handlers e |}
    method relativePath h e.

(** gin's verdict on a registration, from the table so far, the verb and
    the absolute path. *)
Abbreviation Acceptance := (list RouteInfo -> string -> string -> bool).

(** [engine.addRoute] with the verdict: [None] is gin's panic, and the
    table is left as it was. *)
Definition tryAddRoute (accepts : Acceptance) (ri : RouteInfo) (e : Engine)
  : option Engine :=
  if accepts (trees e) (ri_method ri) (ri_path ri) then Some (addRoute ri e)
  else None.

Definition tryGroupHandle (accepts : Acceptance) (g : RouterGroup)
    (method relativePath : string) (h : HandlerFunc) (e : Engine) : option Engine :=
  tryAddRoute accepts
    {| ri_method := method;
       ri_path := joinPaths (g_basePath g) relativePath;
       ri_handlers := g_Handlers g ++ [h] |} e.

Definition tryHandle (accepts : Acceptance) (method relativePath : string)
    (h : HandlerFunc) (e : Engine) : option Engine :=
  tryGroupHandle accepts {| g_basePath := basePath e; g_Handlers := Handlers e |}
    method relativePath h e.

(** A wildcard segment of a pattern: [:name] or [*name]. *)
Definition isWildcard (segment : string) : bool :=
  match segment with
  | String ch _ => Ascii.eqb ch ":" || Ascii.eqb ch "*"
  | EmptyString => false
  end.

(** Two patterns that agree up to a place where both have a wildcard,
    under different names. *)
Fixpoint wildcardConflict (p q : list string) : bool :=
  match p, q with
  | a :: p', b :: q' =>
      if String.eqb a b then wildcardConflict p' q'
      else isWildcard a && isWildcard b
  | _, _ => false
  end.

(** gin's verdict in outline: the verb is not empty, the path starts
    with a slash, and no entry of the table with the same verb has the
    same path or a conflicting wildcard. *)
Definition ginAccepts : Acceptance :=
  fun table method path =>
    negb (String.eqb method "") && isRooted path
    && forallb
         (fun ri =>
            negb (String.eqb (ri_method ri) method)
            || negb (String.eqb (ri_path ri) path
                     || wildcardConflict (splitOn slash (ri_path ri) "")
                          (splitOn slash path "")))
         table.

(** [engine.NoRoute(handlers...)]: sets the hook and rebuilds its chain. *)
Definition NoRoute (hs : list HandlerFunc) (e : Engine) : Engine :=
  {| basePath := basePath e; Handlers := Handlers e; noRoute := hs;
     allNoRoute := Handlers e ++ hs; trees := trees e |}.

(** [engine.Use(middleware...)]: later registrations and the no-route
    chain get the middleware; entries already in the table keep their
    chains. *)
Definition Use (mw : list HandlerFunc) (e : Engine) : Engine :=
  {| basePath := basePath e; Handlers := Handlers e ++ mw;
     noRoute := noRoute e; allNoRoute := (Handlers e ++ mw) ++ noRoute e;
     trees := trees e |}.

Definition default404Body : string := "404 page not found".

(** What the engine does with a request that matches no entry of the
    table ([serveError] with 404): the status is preset, the no-route
    chain runs, and gin's own body is written only if the chain wrote
    nothing and left the status. *)
Definition serveNoRoute (e : Engine) (c : Context) : Outcome :=
  let c0 := {| Params := Params c; status := 404; written := written c;
               body := body c; handlerCalls := handlerCalls c |} in
  bind (runChain (allNoRoute e) c0) (fun c1 =>
    if written c1 then Returned c1
    else if status c1 =? 404 then Returned (write [ChunkText default404Body] c1)
    else Returned (write [] c1)).

(** *** Serving *)

(** Whether a path matches a pattern, segment by segment, and the path
    parameters it binds: [:name] takes one segment that is not empty,
    [*name] the rest of the path. *)
Fixpoint matchSegments (pattern path : list string) : option (list (string * string)) :=
  match pattern, path with
  | [], [] => Some []
  | String ":" name :: pattern', seg :: path' =>
      if String.eqb seg "" then None
      else option_map (cons (name, seg)) (matchSegments pattern' path')
  | String "*" name :: _, _ :: _ => Some [(name, "/" +:+ joinWith "/" path)]
  | p :: pattern', seg :: path' =>
      if String.eqb p seg then matchSegments pattern' path' else None
  | _, _ => None
  end.

Fixpoint findRoute (table : list RouteInfo) (method path : string)
  : option (RouteInfo * list (string * string)) :=
  match table with
  | [] => None
  | ri :: rest =>
      match
        (if String.eqb (ri_method ri) method
         then matchSegments (splitOn slash (ri_path ri) "") (splitOn slash path "")
         else None)
      with
      | Some params => Some (ri, params)
      | None => findRoute rest method path
      end
  end.

(** [engine.ServeHTTP] on a fresh request: the chain of the entry that
    matches verb and path runs on a new context with the path
    parameters; without a match the no-route chain does. The first
    matching entry stands for gin's choice, which differs only when
    several entries match. *)
Definition ServeHTTP (e : Engine) (method path : string) : Outcome :=
  match findRoute (trees e) method path with
  | Some (ri, params) =>
      bind (runChain (ri_handlers ri) (newContext params))
        (fun c => Returned (write [] c))
  | None => serveNoRoute e (newContext [])
  end.

(** What the engine's own [Run(addr)] leaves when it returns: the error
    the listener failed with, and what gin itself printed. *)
Record Served := {
  served_err : option string;
  served_output : list string
}.

(** gin's [Engine.Run] on a listener that fails with [listen addr]: the
    error is returned. In debug mode gin itself prints its warning about
    trusted proxies, the address it listens on and, last, the error;
    outside debug mode it prints nothing. *)
Definition ginRun (debugging : bool) (listen : string -> string)
  : Engine -> string -> Served :=
  fun _ addr =>
    {| served_err := Some (listen addr);
       served_output :=
         if debugging then
           ["[GIN-debug] [WARNING] You trusted all proxies, this is NOT safe. We recommend you to set a value.";
            "Please check https://pkg.go.dev/github.com/gin-gonic/gin#readme-don-t-trust-all-proxies for details.";
            "[GIN-debug] Listening and serving HTTP on " +:+ addr;
            "[GIN-debug] [ERROR] " +:+ listen addr]
         else [] |}.

End Gin.

Import Gin.

(* ===================================================================== *)
(** ** Method, Route, RouteList                                           *)
(* ===================================================================== *)

(** Modelled from the spec: the file declaring [Method] is not part of
    the sources at hand; [router.go] uses its constants [Get] ... [Trace]
    and [String()]. The spec gives the closed set of verbs, each
    serialising to its wire token. *)
Inductive Method := Get | Post | Put | Patch | Delete | Head | Options | Connect | Trace.

Definition Method_String (m : Method) : string :=
  match m with
  | Get => "GET" | Post => "POST" | Put => "PUT" | Patch => "PATCH"
  | Delete => "DELETE" | Head => "HEAD" | Options => "OPTIONS"
  | Connect => "CONNECT" | Trace => "TRACE"
  end.

(** A handler as [router.go] receives it ([interface{}]): the type that
    [reflect.TypeOf] reports and the behaviour that [reflect.Value.Call]
    starts, given the argument values. *)
Record Handler := {
  handlerType : Ty;
  handlerBody : list Value -> Context -> Outcome
}.

(** Modelled from the spec: the file declaring [Route] and [NewRoute] is
    not part of the sources at hand; [router.go] reads the fields [name],
    [pattern], [handler], [method] and passes [NewRoute] those four and a
    map of child routes by name. *)
Inductive Route :=
| mkRoute (name : string) (pattern : string) (handler : Handler)
    (method : Method) (children : gmap string Route).

Definition Route_name (r : Route) : string :=
  match r with mkRoute name _ _ _ _ => name end.
Definition Route_pattern (r : Route) : string :=
  match r with mkRoute _ pattern _ _ _ => pattern end.
Definition Route_handler (r : Route) : Handler :=
  match r with mkRoute _ _ handler _ _ => handler end.
Definition Route_method (r : Route) : Method :=
  match r with mkRoute _ _ _ method _ => method end.
Definition Route_children (r : Route) : gmap string Route :=
  match r with mkRoute _ _ _ _ children => children end.

Definition NewRoute (name pattern : string) (handler : Handler)
    (method : Method) (children : gmap string Route) : Route :=
  mkRoute name pattern handler method children.

(** Modelled from the spec: the file declaring [RouteList] is not part
    of the sources at hand; [router.go] reads the fields [pattern] (a
    prefix, possibly empty), [routes] and [children], both in insertion
    order. *)
Inductive RouteList :=
| mkRouteList (pattern : string) (routes : list Route) (children : list RouteList).

Definition RouteList_pattern (l : RouteList) : string :=
  match l with mkRouteList pattern _ _ => pattern end.
Definition RouteList_routes (l : RouteList) : list Route :=
  match l with mkRouteList _ routes _ => routes end.
Definition RouteList_children (l : RouteList) : list RouteList :=
  match l with mkRouteList _ _ children => children end.

(* ===================================================================== *)
(** ** router.go                                                          *)
(* ===================================================================== *)

(** [type ErrorHandlerFunc func(c *gin.Context)]. *)
Abbreviation ErrorHandlerFunc := (Context -> Outcome).

(** [type Router struct]. The fields [middlewares] and [mode] are never
    read in [router.go] and are left out. A [Router] value is the state
    of a router made by [NewRouter]: the maps and the engine exist. *)
Record Router := {
  router : Engine;
  routes : gmap string Route;
  errorHandlers : gmap Z ErrorHandlerFunc;
  defaultHandler : ErrorHandlerFunc
}.

Definition set_router (e : Engine) (r : Router) : Router :=
  {| router := e; routes := routes r; errorHandlers := errorHandlers r;
     defaultHandler := defaultHandler r |}.

Definition set_routes (m : gmap string Route) (r : Router) : Router :=
  {| router := router r; routes := m; errorHandlers := errorHandlers r;
     defaultHandler := defaultHandler r |}.

Definition set_errorHandlers (m : gmap Z ErrorHandlerFunc) (r : Router) : Router :=
  {| router := router r; routes := routes r; errorHandlers := m;
     defaultHandler := defaultHandler r |}.

Definition set_defaultHandler (h : ErrorHandlerFunc) (r : Router) : Router :=
  {| router := router r; routes := routes r; errorHandlers := errorHandlers r;
     defaultHandler := h |}.

(** The closure [NewRouter] stores in [defaultHandler]. *)
Definition initialDefaultHandler : ErrorHandlerFunc :=
  fun c =>
    let status := status c in
    Returned (JSON status
      [("error", VString "An error occurred");
       ("description", VString "No specific handler defined for this status")] c).

Definition NewRouter : Router :=
  {| router := New;
     routes := ∅;
     errorHandlers := ∅;
     defaultHandler := initialDefaultHandler |}.

(** Methods with receiver [r *Router] that end in [return r] are state
    transformers here. For the methods that register with the engine
    they give the state of a call that the engine accepts; the calls
    with the engine's verdict and the receiver pointer follow further
    down ([AddRoute_call], [Ref_AddRoute]). *)

Definition SetDefaultErrorHandler (handler : ErrorHandlerFunc) (r : Router) : Router :=
  let r := set_defaultHandler handler r in
  set_router (NoRoute [plain (fun cc => handler cc)] (router r)) r.

Definition GetRoutes (r : Router) : gmap string Route := routes r.

Definition SetErrorHandler (status : Z) (handler : ErrorHandlerFunc) (r : Router) : Router :=
  let r :=
    if status =? 404
    then set_router (NoRoute [plain (fun cc => handler cc)] (router r)) r
    else r in
  set_errorHandlers (<[status := handler]> (errorHandlers r)) r.

(** [ErrorHandlerMiddleware]. The Go closure reads [r.errorHandlers] and
    [r.defaultHandler] when a request is served; [r] is the router's
    state at that time. *)
Definition ErrorHandlerMiddleware (r : Router) : HandlerFunc :=
  fun Next c =>
    bind (Next c) (fun c =>
      let status := status c in
      if 400 <=? status then
        match errorHandlers r !! status with
        | Some handler => handler c
        | None => defaultHandler r c
        end
      else Returned c).

#[global] Instance Kind_eq_dec : EqDecision Kind.
Proof. solve_decision. Defined.

(** [Type.Elem]; Go panics on a type without element. *)
Definition Elem (t : Ty) : option Ty :=
  match t with TPtr elem => Some elem | _ => None end.

(** Bookkeeping: one more entry into a registered handler. *)
Definition enter (c : Context) : Context :=
  {| Params := Params c; status := status c; written := written c;
     body := body c; handlerCalls := S (handlerCalls c) |}.

(** [reflect.ValueOf(handler).Call(args)], for argument lists that start
    with the context: a panic unless [handler] is a function of as many
    parameters whose first one takes a [*gin.Context]. The second
    argument, when there is one, is built from the parameter's own type
    and is always assignable. *)
Definition Call (handler : Handler) (args : list Value) (c : Context) : Outcome :=
  match handlerType handler with
  | TFunc ins =>
      if (length args <? length ins)%nat then
        Panicked "reflect: Call with too few input arguments"
      else if (length ins <? length args)%nat then
        Panicked "reflect: Call with too many input arguments"
      else
        match ins with
        | t0 :: _ =>
            if acceptsContext t0 then handlerBody handler args (enter c)
            else Panicked "reflect: Call using *gin.Context as another type"
        | [] => handlerBody handler args (enter c)
        end
  | _ => Panicked "reflect: call of reflect.Value.Call on a value that is no Func"
  end.

(** Result of [c.ShouldBindUri(paramValue)]: the populated target, or the
    decode error. *)
Inductive BindResult :=
| Bound (v : Value)
| BindError (err : string).

(* ===================================================================== *)
(** ** Placeholders of a pattern                                          *)
(* ===================================================================== *)

(** A pattern read as the claim about URL generation reads it: a
    sequence of plain characters and of placeholders [:segmentName]. A
    placeholder starts at a colon and runs up to the next slash or the
    end of the pattern, as in the underlying server's pattern syntax. *)
Inductive Token :=
| Char (ch : ascii)
| Placeholder (segmentName : string).

(** Splits before the first slash. *)
Fixpoint untilSlash (s : string) : string * string :=
  match s with
  | EmptyString => ("", "")
  | String ch rest =>
      if Ascii.eqb ch slash then ("", s)
      else let '(segmentName, after) := untilSlash rest in
           (String ch segmentName, after)
  end.

Lemma untilSlash_length (s : string) :
  (String.length (untilSlash s).2 <= String.length s)%nat.
Proof.
  induction s as [|ch rest IH]; simpl; [lia|].
  destruct (Ascii.eqb ch slash); simpl; [lia|].
  destruct (untilSlash rest) as [n after]; simpl in *; lia.
Qed.

Equations? tokenize (s : string) : list Token by wf (String.length s) lt :=
tokenize EmptyString := [];
tokenize (String ch rest) with Ascii.eqb ch ":" := {
  | true => Placeholder (untilSlash rest).1 :: tokenize (untilSlash rest).2
  | false => Char ch :: tokenize rest }.
Proof.
  pose proof (untilSlash_length rest). simpl. lia.
Qed.

(** The text of a token in a pattern. *)
Definition tokenText (t : Token) : string :=
  match t with
  | Char ch => String ch ""
  | Placeholder segmentName => ":" +:+ segmentName
  end.

Fixpoint untokenize (ts : list Token) : string :=
  match ts with
  | [] => ""
  | t :: rest => tokenText t +:+ untokenize rest
  end.

(** The placeholder names of a pattern, in order. *)
Definition placeholders (pattern : string) : list string :=
  omap (fun t => match t with Placeholder x => Some x | Char _ => None end)
    (tokenize pattern).

(* ===================================================================== *)
(** ** A decoder and a printer to run the router on                       *)
(* ===================================================================== *)

(** The router is defined, and its properties are proved, for every
    decoder and every printer. The ones here are used to run the
    definitions on requests: they follow gin's URI binding and [fmt]'s
    [%v] on the values the examples use. *)

(** The value bound to a key; of several, the last. *)
Fixpoint lookupParam (ps : list (string * string)) (key : string) : option string :=
  match ps with
  | [] => None
  | (k, v) :: rest =>
      match lookupParam rest key with
      | Some later => Some later
      | None => if String.eqb k key then Some v else None
      end
  end.

Definition quote : string := String (ascii_of_nat 34) "".

Definition parseError (fn raw reason : string) : string :=
  "strconv." +:+ fn +:+ ": parsing " +:+ quote +:+ raw +:+ quote +:+ ": " +:+ reason.

(** [strconv.ParseInt(raw, 10, 64)]: an optional sign, decimal digits,
    the range of [int64]. *)
Definition parseInt (raw : string) : string + Z :=
  let digits := match raw with String "+" rest => rest | _ => raw end in
  let signed :=
    match raw with
    | String "+" (String "-" _) | String "+" (String "+" _) => None
    | _ => NilZero.int_of_string digits
    end in
  match signed with
  | None => inl (parseError "ParseInt" raw "invalid syntax")
  | Some d =>
      let z := Z.of_int d in
      if (- 2 ^ 63 <=? z) && (z <? 2 ^ 63) then inr z
      else inl (parseError "ParseInt" raw "value out of range")
  end.

(** gin's setters on a path segment, by the type of the field; for
    numbers and booleans an empty segment counts as the zero value. *)
Definition convert (t : FieldTy) (raw : string) : string + Value :=
  match t with
  | FString => inr (VString raw)
  | FInt =>
      match parseInt (if String.eqb raw "" then "0" else raw) with
      | inl err => inl err
      | inr z => inr (VInt z)
      end
  | FBool =>
      let raw := if String.eqb raw "" then "false" else raw in
      if existsb (String.eqb raw) ["1"; "t"; "T"; "TRUE"; "true"; "True"]
      then inr (VBool true)
      else if existsb (String.eqb raw) ["0"; "f"; "F"; "FALSE"; "false"; "False"]
      then inr (VBool false)
      else inl (parseError "ParseBool" raw "invalid syntax")
  end.

(** First stage: every tagged field with a matching path segment is set;
    the first conversion failure is the error. *)
Fixpoint mapFields (ps : list (string * string)) (fs : list Field)
  : string + list (string * Value) :=
  match fs with
  | [] => inr []
  | f :: rest =>
      let value :=
        match lookupParam ps (uriTag f) with
        | Some raw =>
            if String.eqb (uriTag f) "" then inr (zeroField (fieldTy f))
            else convert (fieldTy f) raw
        | None => inr (zeroField (fieldTy f))
        end in
      match value with
      | inl err => inl err
      | inr v =>
          match mapFields ps rest with
          | inl err => inl err
          | inr vs => inr ((fieldName f, v) :: vs)
          end
      end
  end.

Definition isZero (v : Value) : bool :=
  match v with
  | VBool false => true
  | VInt 0 => true
  | VString EmptyString => true
  | VNil => true
  | _ => false
  end.

(** Second stage: a field marked [required] must not be left at its zero
    value. The text is the validator's without its head, which names the
    struct and is not modelled. *)
Fixpoint validate (fs : list Field) (vs : list (string * Value)) : option string :=
  match fs, vs with
  | f :: fs', (_, v) :: vs' =>
      if required f && isZero v
      then Some ("Field validation for '" +:+ fieldName f
                 +:+ "' failed on the 'required' tag")
      else validate fs' vs'
  | _, _ => None
  end.

Definition bindUri (c : Context) (t : Ty) (target : Value) : BindResult :=
  match t with
  | TStruct fs =>
      match mapFields (Params c) fs with
      | inl err => BindError err
      | inr vs =>
          match validate fs vs with
          | Some err => BindError err
          | None => Bound (VStruct vs)
          end
      end
  | _ => Bound target
  end.

Definition sprint (v : Value) : string :=
  match v with
  | VString s => s
  | VInt z => NilZero.string_of_int (Z.to_int z)
  | VBool true => "true"
  | VBool false => "false"
  | VNil => "<nil>"
  | VStruct _ | VPtr _ | VContext => ""
  end.

(** The handler and the parameter struct of the repository's tests. *)
Definition ProductDetailParams : Ty :=
  TStruct [ {| fieldName := "Locale"; fieldTy := FString; uriTag := "locale"; required := true |};
            {| fieldName := "ID"; fieldTy := FInt; uriTag := "id"; required := true |} ].

Fixpoint fieldOf (name : string) (fs : list (string * Value)) : Value :=
  match fs with
  | [] => VNil
  | (k, v) :: rest => if String.eqb k name then v else fieldOf name rest
  end.

(** [p.Name] for a pointer [p] to a struct. *)
Definition field (name : string) (p : Value) : Value :=
  match p with
  | VPtr (VStruct fs) => fieldOf name fs
  | _ => VNil
  end.

Definition productDetailHandler : Handler :=
  {| handlerType := TFunc [TPtr TContext; TPtr ProductDetailParams];
     handlerBody := fun args c =>
       match args with
       | [_; params] =>
           Returned (JSON 200 [("locale", field "Locale" params);
                               ("id", field "ID" params)] c)
       | _ => Panicked "unreachable"
       end |}.

Section WithCollaborators.

(** gin's path-parameter decoding: given the request, the type of the
    target and its zero value. *)
Variable ShouldBindUri : Context -> Ty -> Value -> BindResult.

(** [fmt.Sprintf("%v", value)]. *)
Variable Sprint : Value -> string.

(** [createHandlerFunc]: the [gin.HandlerFunc] made from a handler, before
    it is put in a chain. *)
Definition createHandlerFunc (handler : Handler) : Context -> Outcome :=
  fun c =>
    let handlerType := handlerType handler in
    if negb (bool_decide (kindOf handlerType = KFunc))
       || negb (NumIn handlerType =? 2)%nat then
      Call handler [VContext] c
    else
      match In_ handlerType 1 with
      | None => Panicked "reflect: Func index out of bounds"
      | Some paramType =>
          if negb (bool_decide (kindOf paramType = KPtr)) then
            Panicked ("Handler parameter must be a pointer to a struct, got "
                      +:+ Kind_String (kindOf paramType))
          else
            match Elem paramType with
            | None => Panicked "reflect: Elem of invalid type"
            | Some paramElemType =>
                let paramValue := zero paramElemType in
                match ShouldBindUri c paramElemType paramValue with
                | BindError err =>
                    Returned (JSON 400 [("error", VString err)] c)
                | Bound bound =>
                    Call handler [VContext; VPtr bound] c
                end
            end
      end.

(** [createNativeRoute]. *)
Definition createNativeRoute (g : RouterGroup) (route : Route) (e : Engine) : Engine :=
  groupHandle g (Method_String (Route_method route)) (Route_pattern route)
    (plain (createHandlerFunc (Route_handler route))) e.

Definition AddRoute (name pattern : string) (handler : Handler) (method : Method)
    (r : Router) : Router :=
  let r := set_routes (<[name := NewRoute name pattern handler method ∅]> (routes r)) r in
  set_router (Handle (Method_String method) pattern
                (plain (createHandlerFunc handler)) (router r)) r.

(** The body of the loop over [l.routes] in [AddRouteList]. *)
Definition addListedRoute (group : option RouterGroup) (r : Router) (route : Route) : Router :=
  match group with
  | Some g =>
      let r := set_router (createNativeRoute g route (router r)) r in
      set_routes (<[Route_name route := route]> (routes r)) r
  | None =>
      AddRoute (Route_name route) (Route_pattern route) (Route_handler route)
        (Route_method route) r
  end.

Fixpoint AddRouteList (l : RouteList) (r : Router) : Router :=
  match l with
  | mkRouteList pattern routes children =>
      let group :=
        if negb (String.eqb pattern "") then Some (Group (router r) pattern)
        else None in
      let r := fold_left (addListedRoute group) routes r in
      fold_left (fun r child => AddRouteList child r) children r
  end.

Definition AddMultiMethodsRoute (name pattern : string) (handler : Handler)
    (methods : list Method) (r : Router) : Router :=
  fold_left (fun r m => AddRoute name pattern handler m r) methods r.

Definition AddRouteMethod (name pattern : string) (handler : Handler)
    (method : Method) (r : Router) : Router :=
  AddRoute name pattern handler method r.

(** [CreateRoute[T any]]: the handler has type [func(c *gin.Context, p *T)]. *)
Definition CreateRoute (T : Ty) (name pattern : string)
    (handler : list Value -> Context -> Outcome) (method : Method)
    (r : Router) : Router :=
  AddRoute name pattern
    {| handlerType := TFunc [TPtr TContext; TPtr T]; handlerBody := handler |}
    method r.

Definition AddRouteGet (name pattern : string) (handler : Handler) (r : Router) : Router :=
  AddRouteMethod name pattern handler Get r.

Definition AddRoutePost (name pattern : string) (handler : Handler) (r : Router) : Router :=
  AddRouteMethod name pattern handler Post r.


(** *** URL generation *)

(** The text a placeholder is replaced with. *)
Definition expand (params : gmap string Value) (segmentName : string) : string :=
  match params !! segmentName with
  | Some value => Sprint value
  | None => ":" +:+ segmentName
  end.

(** The scan of [GenerateUrlByPattern]: [inName] holds the characters of
    the placeholder being read, if any. *)
Fixpoint substitute (params : gmap string Value) (pattern : string)
    (inName : option string) : string :=
  match pattern with
  | EmptyString =>
      match inName with
      | Some segmentName => expand params segmentName
      | None => ""
      end
  | String ch rest =>
      match inName with
      | None =>
          if Ascii.eqb ch ":" then substitute params rest (Some "")
          else String ch (substitute params rest None)
      | Some segmentName =>
          if Ascii.eqb ch slash
          then expand params segmentName +:+ String ch (substitute params rest None)
          else substitute params rest (Some (segmentName +:+ String ch ""))
      end
  end.

(** Modelled from the spec: the package-level [GenerateUrlByPattern] that
    [router.go] delegates to is not part of the sources at hand. The spec:
    "Substitution scans the pattern for named placeholders
    ([:segmentName] tokens) and replaces each with the string form of
    [params[segmentName]]". For a placeholder without entry the spec
    allows either an error or the raw token; this model leaves the raw
    token in the output and reports no error. *)
Definition GenerateUrlByPattern (pattern : string) (params : gmap string Value)
  : string * option string :=
  (substitute params pattern None, None).

(** The method [Router.GenerateUrlByPattern]. *)
Definition Router_GenerateUrlByPattern (r : Router) (pattern : string)
    (params : gmap string Value) : string * option string :=
  GenerateUrlByPattern pattern params.

(** The second component is Go's [error]: [None] is [nil], [Some msg] the
    error made by [errors.New(msg)]. *)
Definition GenerateUrlByName (r : Router) (name : string)
    (params : gmap string Value) : string * option string :=
  match routes r !! name with
  | None => ("", Some ("route with name " +:+ name +:+ " not found"))
  | Some route => Router_GenerateUrlByPattern r (Route_pattern route) params
  end.

Definition GetNativeRouter (r : Router) : Engine := router r.

(** *** Run *)

(** The hook [Run] installs when no handler is registered for 404. *)
Definition custom404 : Context -> Outcome :=
  fun c => Returned (JSON 404 [("error", VString "Custom 404")] c).

(** [Run(addr)]. [engineRun] is the engine's own [Run]: it serves until
    the listener fails. The Go method has no result; the value here is
    the router's state when it returns and the output printed meanwhile,
    which is the engine's: [Run] itself prints nothing. *)
Definition Run (addr : string) (engineRun : Engine -> string -> Served)
    (r : Router) : Router * list string :=
  let router :=
    match errorHandlers r !! 404 with
    | Some h => NoRoute [plain (fun c => h c)] (router r)
    | None => NoRoute [plain custom404] (router r)
    end in
  let router := Use [ErrorHandlerMiddleware r] router in
  let served := engineRun router addr in
  let err := served_err served in
  match err with
  | Some _ => (set_router router r, served_output served)
  | None => (set_router router r, served_output served)
  end.

(** The engine as it serves during [Run]. *)
Definition servingEngine (r : Router) : Engine :=
  router (Run "" (fun _ _ => {| served_err := None; served_output := [] |}) r).1.

(** *** The registration calls, with the engine's verdict *)

(** The underlying server's verdict on each registration. *)
Variable accepts : Acceptance.

(** A call either returns, or panics inside the engine; either way it
    leaves the router in some state. *)
Inductive CallOutcome :=
| Returns (r : Router)
| Panics (r : Router).

Definition thenCall (o : CallOutcome) (k : Router -> CallOutcome) : CallOutcome :=
  match o with
  | Returns r => k r
  | Panics r => Panics r
  end.

(** [AddRoute]: the registry is written first, then the engine is
    asked. *)
Definition AddRoute_call (name pattern : string) (handler : Handler)
    (method : Method) (r : Router) : CallOutcome :=
  let r := set_routes (<[name := NewRoute name pattern handler method ∅]> (routes r)) r in
  match tryHandle accepts (Method_String method) pattern
          (plain (createHandlerFunc handler)) (router r) with
  | Some e => Returns (set_router e r)
  | None => Panics r
  end.

(** The body of the loop of [AddRouteList]: with a group the engine is
    asked first and the registry written afterwards. *)
Definition addListedRoute_call (group : option RouterGroup) (r : Router)
    (route : Route) : CallOutcome :=
  match group with
  | Some g =>
      match tryGroupHandle accepts g (Method_String (Route_method route))
              (Route_pattern route)
              (plain (createHandlerFunc (Route_handler route))) (router r) with
      | Some e =>
          let r := set_router e r in
          Returns (set_routes (<[Route_name route := route]> (routes r)) r)
      | None => Panics r
      end
  | None =>
      AddRoute_call (Route_name route) (Route_pattern route) (Route_handler route)
        (Route_method route) r
  end.

Fixpoint AddRouteList_call (l : RouteList) (r : Router) : CallOutcome :=
  match l with
  | mkRouteList pattern routes children =>
      let group :=
        if negb (String.eqb pattern "") then Some (Group (router r) pattern)
        else None in
      thenCall
        (fold_left
           (fun o route => thenCall o (fun r => addListedRoute_call group r route))
           routes (Returns r))
        (fun r =>
           fold_left (fun o child => thenCall o (AddRouteList_call child))
             children (Returns r))
  end.

Definition AddMultiMethodsRoute_call (name pattern : string) (handler : Handler)
    (methods : list Method) (r : Router) : CallOutcome :=
  fold_left (fun o m => thenCall o (AddRoute_call name pattern handler m))
    methods (Returns r).

(** Whether the engine accepts [AddRoute(_, pattern, _, method)] on the
    router [r]. *)
Definition admits (r : Router) (method : Method) (pattern : string) : bool :=
  accepts (trees (router r)) (Method_String method)
    (joinPaths (basePath (router r)) pattern).

(** The registrations [es] one after the other, each with the group of
    its prefix in the engine [e0], up to the first that the engine
    rejects. *)
Fixpoint registerAll (e0 : Engine) (es : list (string * Route)) (r : Router)
  : CallOutcome :=
  match es with
  | [] => Returns r
  | (prefix, route) :: rest =>
      thenCall
        (addListedRoute_call
           (if negb (String.eqb prefix "") then Some (Group e0 prefix) else None)
           r route)
        (registerAll e0 rest)
  end.

(** *** The receiver pointer *)

(** Routers live in a heap; a method called on [r] reads and updates the
    router at [r] and, unless it panics, returns [r]. A call on a
    pointer without router is the nil-pointer panic. *)
Definition ptr := positive.

Inductive RefOutcome :=
| RefReturns (p : ptr) (σ : gmap ptr Router)
| RefPanics (σ : gmap ptr Router).

Definition method_call (f : Router -> CallOutcome) (r : ptr) (σ : gmap ptr Router)
  : RefOutcome :=
  match σ !! r with
  | Some R =>
      match f R with
      | Returns R' => RefReturns r (<[r := R']> σ)
      | Panics R' => RefPanics (<[r := R']> σ)
      end
  | None => RefPanics σ
  end.

Definition Ref_AddRoute (r : ptr) (name pattern : string) (handler : Handler)
    (m : Method) : gmap ptr Router -> RefOutcome :=
  method_call (AddRoute_call name pattern handler m) r.

Definition Ref_AddRouteList (r : ptr) (l : RouteList) : gmap ptr Router -> RefOutcome :=
  method_call (AddRouteList_call l) r.

(** *** Specification vocabulary *)

(** [Replaced params ts out]: [out] is the token sequence [ts] with each
    placeholder [x] replaced by the string form of [params[x]]. *)
Inductive Replaced (params : gmap string Value) : list Token -> string -> Prop :=
| Replaced_nil : Replaced params [] ""
| Replaced_char ch ts out :
    Replaced params ts out ->
    Replaced params (Char ch :: ts) (String ch out)
| Replaced_placeholder x value ts out :
    params !! x = Some value ->
    Replaced params ts out ->
    Replaced params (Placeholder x :: ts) (Sprint value +:+ out).

(** The registrations [AddRouteList] makes, in order: for each route the
    prefix of the list that owns it and the route. *)
Fixpoint flatten (l : RouteList) : list (string * Route) :=
  match l with
  | mkRouteList pattern routes children =>
      map (fun route => (pattern, route)) routes
      ++ concat (map flatten children)
  end.

(** The routes of a tree with the prefixes of all the lists above them,
    outermost first: what the data model calls the effective pattern. *)
Fixpoint nested (ancestors : list string) (l : RouteList)
  : list (list string * Route) :=
  match l with
  | mkRouteList pattern routes children =>
      map (fun route => (ancestors ++ [pattern], route)) routes
      ++ concat (map (nested (ancestors ++ [pattern])) children)
  end.

(** The path-join of a sequence of prefixes below the engine's root, then
    of a route's own pattern. *)
Definition joinAll (prefixes : list string) (pattern : string) : string :=
  joinPaths (fold_left joinPaths prefixes "/") pattern.

(** What a route of a list with prefix [prefix] becomes in the engine's
    table and in the registry. *)
Definition entry (e : Engine) (prefix : string) (route : Route) : RouteInfo :=
  {| ri_method := Method_String (Route_method route);
     ri_path := joinPaths (joinPaths (basePath e) prefix) (Route_pattern route);
     ri_handlers := Handlers e ++ [plain (createHandlerFunc (Route_handler route))] |}.

Definition stored (prefix : string) (route : Route) : Route :=
  if String.eqb prefix "" then
    NewRoute (Route_name route) (Route_pattern route) (Route_handler route)
      (Route_method route) ∅
  else route.

Definition record (m : gmap string Route) (pr : string * Route) : gmap string Route :=
  <[Route_name pr.2 := stored pr.1 pr.2]> m.

(** A router after the registrations [es], in closed form. *)
Definition registered (es : list (string * Route)) (r : Router) : Router :=
  {| router :=
       {| basePath := basePath (router r);
          Handlers := Handlers (router r);
          noRoute := noRoute (router r);
          allNoRoute := allNoRoute (router r);
          trees := trees (router r) ++ map (fun pr => entry (router r) pr.1 pr.2) es |};
     routes := fold_left record es (routes r);
     errorHandlers := errorHandlers r;
     defaultHandler := defaultHandler r |}.

(** The routers a program can have before it calls [Run]: made by
    [NewRouter] and changed through the methods of [router.go] only. *)
Inductive Built : Router -> Prop :=
| Built_NewRouter : Built NewRouter
| Built_SetErrorHandler status handler r :
    Built r -> Built (SetErrorHandler status handler r)
| Built_SetDefaultErrorHandler handler r :
    Built r -> Built (SetDefaultErrorHandler handler r)
| Built_AddRoute name pattern handler method r :
    Built r -> Built (AddRoute name pattern handler method r)
| Built_AddMultiMethodsRoute name pattern handler methods r :
    Built r -> Built (AddMultiMethodsRoute name pattern handler methods r)
| Built_AddRouteList l r :
    Built r -> Built (AddRouteList l r).

(** Method and path of the entries of a table. *)
Definition endpoints (ts : list RouteInfo) : list (string * string) :=
  map (fun ri => (ri_method ri, ri_path ri)) ts.

(* ===================================================================== *)
(** ** Properties                                                         *)
(* ===================================================================== *)

(** *** Flattening *)

Lemma RouteList_nested_ind (P : RouteList -> Prop) :
  (forall pattern routes children,
      Forall P children -> P (mkRouteList pattern routes children)) ->
  forall l, P l.
Proof.
  intros step. fix IH 1. intros [pattern routes children].
  apply step. induction children as [|child rest IHrest]; constructor.
  - apply IH.
  - apply IHrest.
Qed.

Lemma registered_nil r : registered [] r = r.
Proof.
  destruct r as [[b hs nr anr ts] rs ehs dh]. unfold registered. simpl.
  by rewrite app_nil_r.
Qed.

Lemma registered_app es1 es2 r :
  registered (es1 ++ es2) r = registered es2 (registered es1 r).
Proof.
  unfold registered. simpl.
  by rewrite map_app, fold_left_app, app_assoc.
Qed.

Lemma addListedRoute_registered prefix r0 r route :
  basePath (router r0) = basePath (router r) ->
  Handlers (router r0) = Handlers (router r) ->
  addListedRoute
    (if negb (String.eqb prefix "") then Some (Group (router r0) prefix) else None)
    r route
  = registered [(prefix, route)] r.
Proof.
  intros Hb Hh. unfold registered, record, stored, entry. simpl.
  destruct (String.eqb_spec prefix "") as [->|Hne]; simpl.
  - unfold AddRoute, Handle, groupHandle, addRoute, set_router, set_routes,
      joinPaths at 2. simpl. reflexivity.
  - unfold createNativeRoute, groupHandle, addRoute, Group, set_router,
      set_routes. simpl. by rewrite Hb, Hh.
Qed.

Lemma fold_addListedRoute_registered prefix r0 routes r :
  basePath (router r0) = basePath (router r) ->
  Handlers (router r0) = Handlers (router r) ->
  fold_left
    (addListedRoute
       (if negb (String.eqb prefix "") then Some (Group (router r0) prefix) else None))
    routes r
  = registered (map (fun route => (prefix, route)) routes) r.
Proof.
  revert r. induction routes as [|route rest IH]; intros r Hb Hh; simpl.
  - by rewrite registered_nil.
  - rewrite (addListedRoute_registered prefix r0 r route Hb Hh).
    rewrite IH by done.
    by rewrite <- registered_app.
Qed.

(** [AddRouteList] is the sequence of registrations of [flatten]: each
    route goes into the table under the engine's base path joined with
    the prefix of the list that owns it and with its own pattern. *)
Lemma AddRouteList_registered l :
  forall r, AddRouteList l r = registered (flatten l) r.
Proof.
  induction l as [pattern routes children IH] using RouteList_nested_ind.
  intros r. simpl.
  rewrite (fold_addListedRoute_registered pattern r routes r) by done.
  rewrite registered_app.
  generalize (registered (map (fun route => (pattern, route)) routes) r).
  clear r. induction IH as [|child rest Hchild _ IHrest]; intros r; simpl.
  - by rewrite registered_nil.
  - rewrite Hchild, IHrest. by rewrite <- registered_app.
Qed.

(** *** The registry after a sequence of registrations *)



(** *** Registration *)

(** *** The handler adapter *)

(** C3. A handler of two parameters whose second is a pointer to a
    struct, on a request whose path parameters fail to decode: the
    wrapper returns after [c.JSON(400, {"error": err})] with the
    decoder's message, and the handler has not been entered; on a
    response not yet written that is status 400 with that body. *)
Theorem createHandlerFunc_decode_failure
    (handler : Handler) (c : Context) (t0 : Ty) (fields : list Field) (err : string) :
  handlerType handler = TFunc [t0; TPtr (TStruct fields)] ->
  ShouldBindUri c (TStruct fields) (zero (TStruct fields)) = BindError err ->
  let c' := JSON 400 [("error", VString err)] c in
  createHandlerFunc handler c = Returned c'
  /\ handlerCalls c' = handlerCalls c
  /\ (written c = false ->
      status c' = 400 /\ body c' = body c ++ [ChunkJSON [("error", VString err)]]).
Proof.
  intros Hty Hbind c'. unfold createHandlerFunc. rewrite Hty. simpl.
  simpl in Hbind. rewrite Hbind. split; [reflexivity|]. subst c'.
  unfold JSON, WriteHeader, write. simpl.
  split.
  - by destruct (negb (status c =? 400) && negb (written c)).
  - intros Hw. rewrite Hw. simpl.
    destruct (Z.eqb_spec (status c) 400) as [Heq|Hne]; simpl; by rewrite ?Heq.
Qed.

(** C8, the case the source misses. A handler of type
    [func(c *gin.Context, p *int)] has two parameters and its second one
    is a pointer, but not to a struct. [createHandlerFunc] does not
    panic on it: it asks the decoder to fill an [int] and then either
    answers 400 or enters the handler with two arguments. *)
Theorem createHandlerFunc_pointer_to_int_not_rejected (c : Context) :
  let handler :=
    {| handlerType := TFunc [TPtr TContext; TPtr TInt];
       handlerBody := fun args c =>
         Returned (JSON 200 [("args", VInt (Z.of_nat (length args)))] c) |} in
  kindOf (TPtr TInt) = KPtr
  /\ Elem (TPtr TInt) = Some TInt
  /\ kindOf TInt <> KStruct
  /\ createHandlerFunc handler c
     = match ShouldBindUri c TInt (VInt 0) with
       | BindError err => Returned (JSON 400 [("error", VString err)] c)
       | Bound _ => Returned (JSON 200 [("args", VInt 2)] (enter c))
       end
  /\ isPanic (createHandlerFunc handler c) = false.
Proof.
  intros handler.
  split; [reflexivity|]. split; [reflexivity|]. split; [discriminate|].
  unfold createHandlerFunc. simpl.
  destruct (ShouldBindUri c TInt (VInt 0)); split; reflexivity.
Qed.

(** The check the source does make: a second parameter that is not a
    pointer at all is a panic at dispatch, with the kind in the message. *)
Lemma createHandlerFunc_non_pointer_panics
    (handler : Handler) (c : Context) (t0 paramType : Ty) :
  handlerType handler = TFunc [t0; paramType] ->
  kindOf paramType <> KPtr ->
  createHandlerFunc handler c
  = Panicked ("Handler parameter must be a pointer to a struct, got "
              +:+ Kind_String (kindOf paramType)).
Proof.
  intros Hty Hk. unfold createHandlerFunc. rewrite Hty. simpl.
  by rewrite bool_decide_eq_false_2.
Qed.

(** *** Error interception *)

(** What the middleware does in a chain that holds it. It first lets the
    rest of the chain run ([c.Next()]); with the context [c'] that the
    chain leaves: for a status of 400 or
    more it calls the handler registered for exactly that status when
    there is one and the default handler otherwise, and for a status
    below 400 it calls no error handler. *)
Theorem ErrorHandlerMiddleware_dispatch
    (r : Router) (Next : Context -> Outcome) (c c' : Context) :
  Next c = Returned c' ->
  (forall handler,
      400 <= status c' -> errorHandlers r !! status c' = Some handler ->
      ErrorHandlerMiddleware r Next c = handler c')
  /\ (400 <= status c' -> errorHandlers r !! status c' = None ->
      ErrorHandlerMiddleware r Next c = defaultHandler r c')
  /\ (status c' < 400 -> ErrorHandlerMiddleware r Next c = Returned c').
Proof.
  intros HNext. unfold ErrorHandlerMiddleware, bind. rewrite HNext.
  repeat split.
  - intros handler Hs Hh. rewrite Hh.
    by destruct (Z.leb_spec 400 (status c')); [|lia].
  - intros Hs Hh. rewrite Hh.
    by destruct (Z.leb_spec 400 (status c')); [|lia].
  - intros Hs. by destruct (Z.leb_spec 400 (status c')); [lia|].
Qed.

(** *** URL generation *)

(** C9. For a name absent from the registry [GenerateUrlByName] returns
    the empty URL and the error "route with name <name> not found"; the
    function is total, there is no panic. *)
Theorem GenerateUrlByName_unknown_name
    (r : Router) (name : string) (params : gmap string Value) :
  routes r !! name = None ->
  GenerateUrlByName r name params
  = ("", Some ("route with name " +:+ name +:+ " not found")).
Proof.
  intros Hnone. unfold GenerateUrlByName. by rewrite Hnone.
Qed.

Lemma append_String ch (s t : string) : String ch s +:+ t = String ch (s +:+ t).
Proof. reflexivity. Qed.

Lemma append_empty_l (s : string) : "" +:+ s = s.
Proof. reflexivity. Qed.

Lemma append_empty_r (s : string) : s +:+ "" = s.
Proof. induction s as [|ch s IH]; [done|]. by rewrite append_String, IH. Qed.

Lemma append_snoc (s t : string) ch : (s +:+ String ch "") +:+ t = s +:+ String ch t.
Proof. induction s as [|ch' s IH]; [done|]. by rewrite !append_String, IH. Qed.

(** Reading a pattern back from its tokens gives the pattern: the tokens
    lose nothing. *)
Lemma untilSlash_text (s : string) : (untilSlash s).1 +:+ (untilSlash s).2 = s.
Proof.
  induction s as [|ch rest IH]; [done|]. simpl.
  destruct (Ascii.eqb ch slash); [done|].
  destruct (untilSlash rest) as [n after]. simpl in *.
  by rewrite append_String, IH.
Qed.

Lemma append_assoc3 (a b c : string) : (a +:+ b) +:+ c = a +:+ (b +:+ c).
Proof. induction a as [|ch a IH]; [done|]. by rewrite !append_String, IH. Qed.

Lemma untokenize_tokenize (pattern : string) : untokenize (tokenize pattern) = pattern.
Proof.
  funelim (tokenize pattern); [done| |]; simpl;
    match goal with IH : untokenize _ = _ |- _ => rewrite IH end.
  - apply Ascii.eqb_eq in Heq. subst ch.
    unfold tokenText. rewrite append_assoc3. by rewrite untilSlash_text.
  - done.
Qed.

(** Inside a placeholder the scan reads up to the next slash, expands
    the name and goes on after it. *)
Lemma substitute_in_name params (s segmentName : string) :
  substitute params s (Some segmentName)
  = expand params (segmentName +:+ (untilSlash s).1)
    +:+ substitute params (untilSlash s).2 None.
Proof.
  revert segmentName. induction s as [|ch rest IH]; intros segmentName; simpl.
  - by rewrite !append_empty_r.
  - destruct (Ascii.eqb_spec ch slash) as [->|Hne]; simpl.
    + by rewrite append_empty_r.
    + rewrite IH. destruct (untilSlash rest) as [n after]. simpl.
      by rewrite append_snoc.
Qed.

Lemma substitute_Replaced params (pattern : string) :
  (forall x, In x (placeholders pattern) -> is_Some (params !! x)) ->
  Replaced params (tokenize pattern) (substitute params pattern None).
Proof.
  unfold placeholders.
  funelim (tokenize pattern); intros Hall.
  - constructor.
  - simpl in *. rewrite Heq.
    rewrite substitute_in_name, append_empty_l.
    destruct (Hall (untilSlash rest).1) as [value Hvalue]; [by left|].
    unfold expand. rewrite Hvalue.
    econstructor; [done|].
    match goal with IH : context [Replaced] |- _ => apply IH end.
    intros x Hx. apply Hall. by right.
  - simpl in *. rewrite Heq.
    constructor.
    match goal with IH : context [Replaced] |- _ => by apply IH end.
Qed.

(** C2. For a registered name whose pattern's placeholders all have a
    value in [params], [GenerateUrlByName] returns with no error the
    pattern with each placeholder [:x] replaced by the string form of
    [params[x]]. *)
Theorem GenerateUrlByName_replaces_placeholders
    (r : Router) (name : string) (route : Route) (params : gmap string Value) :
  routes r !! name = Some route ->
  (forall x, In x (placeholders (Route_pattern route)) -> is_Some (params !! x)) ->
  exists url,
    GenerateUrlByName r name params = (url, None)
    /\ Replaced params (tokenize (Route_pattern route)) url
    /\ untokenize (tokenize (Route_pattern route)) = Route_pattern route.
Proof.
  intros Hroute Hall. unfold GenerateUrlByName. rewrite Hroute.
  eexists. split; [reflexivity|]. split.
  - by apply substitute_Replaced.
  - apply untokenize_tokenize.
Qed.

(** *** Route lists *)

(** C1, where the code departs from it. A list with prefix "/api" holds
    a child list with prefix "/v1" that holds the route "/users". The
    route is two levels deep and its ancestors' prefixes join to
    "/api/v1/users", but [AddRouteList] recurses into the child on the
    router itself, not on the group of "/api": the only entry of the
    engine's table is "/v1/users". *)
Theorem AddRouteList_child_prefix_not_composed :
  let handler :=
    {| handlerType := TFunc [TPtr TContext];
       handlerBody := fun _ c => Returned (JSON 200 [] c) |} in
  let users := NewRoute "users" "/users" handler Get ∅ in
  let tree := mkRouteList "/api" [] [mkRouteList "/v1" [users] []] in
  nested [] tree = [(["/api"; "/v1"], users)]
  /\ joinAll ["/api"; "/v1"] "/users" = "/api/v1/users"
  /\ map ri_path (trees (router (AddRouteList tree NewRouter))) = ["/v1/users"].
Proof.
  intros handler users tree.
  split; [reflexivity|]. split; [reflexivity|].
  rewrite AddRouteList_registered. reflexivity.
Qed.

(** For a list at the root of the tree the prefix does compose: its own
    routes are in the table under prefix and pattern joined. *)
Lemma AddRouteList_own_routes (r : Router) (pattern : string)
    (routes : list Route) (children : list RouteList) (route : Route) :
  In route routes ->
  In (joinPaths (joinPaths (basePath (router r)) pattern) (Route_pattern route))
     (map ri_path (trees (router (AddRouteList (mkRouteList pattern routes children) r)))).
Proof.
  intros Hin. rewrite AddRouteList_registered. simpl.
  rewrite !map_app, !map_map. simpl.
  apply in_or_app. right. apply in_or_app. left.
  apply in_map_iff. by exists route.
Qed.

(** *** The no-route hook and Run *)

(** C5, where the code departs from it. A router with a default handler
    set through [SetDefaultErrorHandler] and no handler for 404. Before
    [Run], a request that matches no route is answered by that handler.
    [Run] then replaces the hook by its own handler, so while the router
    serves, the answer starts with the body "Custom 404"; the default
    handler only runs afterwards, from the middleware, on the response
    already written. A router fresh from [NewRouter] has no hook at all:
    its initial default handler does not answer, the engine's own text
    does. *)
Theorem Run_replaces_default_no_route_hook :
  let fallback : ErrorHandlerFunc :=
    fun c => Returned (JSON (status c) [("error", VString "fallback")] c) in
  let r := SetDefaultErrorHandler fallback NewRouter in
  let answer (o : Outcome) : list Chunk :=
    match o with Returned c => body c | Panicked _ => [] end in
  errorHandlers r !! 404 = None
  /\ answer (serveNoRoute (router r) (newContext []))
     = [ChunkJSON [("error", VString "fallback")]]
  /\ answer (serveNoRoute (servingEngine r) (newContext []))
     = [ChunkJSON [("error", VString "Custom 404")];
        ChunkJSON [("error", VString "fallback")]]
  /\ answer (serveNoRoute (router NewRouter) (newContext []))
     = [ChunkText "404 page not found"].
Proof.
  intros fallback r answer. repeat split; reflexivity.
Qed.

(** With a handler registered for 404 the hook is that handler, before
    and during [Run]. *)
Lemma SetErrorHandler_404_hook (r : Router) (handler : ErrorHandlerFunc) :
  noRoute (router (SetErrorHandler 404 handler r)) = [plain (fun cc => handler cc)]
  /\ noRoute (servingEngine (SetErrorHandler 404 handler r))
     = [plain (fun c => handler c)].
Proof.
  split; [reflexivity|].
  unfold servingEngine, Run, SetErrorHandler. simpl.
  by rewrite lookup_insert_eq.
Qed.

Lemma Run_result (addr : string) (engineRun : Engine -> string -> Served)
    (r : Router) :
  Run addr engineRun r
  = (set_router (servingEngine r) r,
     served_output (engineRun (servingEngine r) addr)).
Proof.
  unfold servingEngine, Run. simpl.
  by destruct (served_err _).
Qed.

(* ===================================================================== *)
(** ** Further properties of router.go                                    *)
(* ===================================================================== *)

(** *** Every registration in closed form *)

Lemma AddRoute_registered name pattern handler m r :
  AddRoute name pattern handler m r
  = registered [("", NewRoute name pattern handler m ∅)] r.
Proof.
  rewrite <- (addListedRoute_registered "" r r) by done. reflexivity.
Qed.

Lemma AddMultiMethodsRoute_registered name pattern handler methods r :
  AddMultiMethodsRoute name pattern handler methods r
  = registered (map (fun m => ("", NewRoute name pattern handler m ∅)) methods) r.
Proof.
  unfold AddMultiMethodsRoute. revert r.
  induction methods as [|m rest IH]; intros r; simpl.
  - by rewrite registered_nil.
  - rewrite IH, AddRoute_registered. by rewrite <- registered_app.
Qed.

Lemma bind_Returned (o : Outcome) : bind o Returned = o.
Proof. by destruct o. Qed.

(** What the routers before [Run] have in common. *)
Definition wellBuilt (r : Router) : Prop :=
  Handlers (router r) = []
  /\ basePath (router r) = "/"
  /\ (forall key route, routes r !! key = Some route -> Route_name route = key)
  /\ Forall (fun ri => exists handler,
                 ri_handlers ri = [plain (createHandlerFunc handler)])
       (trees (router r)).

Lemma fold_record_names es (m : gmap string Route) :
  (forall key route, m !! key = Some route -> Route_name route = key) ->
  forall key route,
    fold_left record es m !! key = Some route -> Route_name route = key.
Proof.
  revert m. induction es as [|[prefix rt] rest IH]; intros m Hm; simpl; [done|].
  apply IH. intros key route. unfold record. simpl.
  destruct (decide (Route_name rt = key)) as [<-|Hne].
  - rewrite lookup_insert_eq. intros [= <-]. unfold stored.
    by destruct (String.eqb prefix "").
  - rewrite lookup_insert_ne by done. apply Hm.
Qed.

Lemma registered_wellBuilt es r : wellBuilt r -> wellBuilt (registered es r).
Proof.
  intros (Hh & Hb & Hn & Ht). unfold wellBuilt, registered. simpl.
  repeat split; try done.
  - by apply fold_record_names.
  - apply Forall_app. split; [done|].
    apply List.Forall_forall. intros ri [pr [<- _]]%in_map_iff.
    exists (Route_handler pr.2). unfold entry. simpl. by rewrite Hh.
Qed.

Lemma Built_wellBuilt r : Built r -> wellBuilt r.
Proof.
  induction 1 as [|status handler r _ IH|handler r _ IH
                  |name pattern handler m r _ IH
                  |name pattern handler methods r _ IH|l r _ IH].
  - repeat split; first [done | constructor].
  - destruct IH as (Hh & Hb & Hn & Ht). unfold SetErrorHandler.
    destruct (status =? 404); repeat split; done.
  - destruct IH as (Hh & Hb & Hn & Ht). repeat split; done.
  - rewrite AddRoute_registered. by apply registered_wellBuilt.
  - rewrite AddMultiMethodsRoute_registered. by apply registered_wellBuilt.
  - rewrite AddRouteList_registered. by apply registered_wellBuilt.
Qed.

(** *** Path joining on paths made of segments *)














(** *** The calls with the engine's verdict, in closed form *)

Lemma AddRoute_call_spec name pattern handler m r :
  AddRoute_call name pattern handler m r
  = if admits r m pattern then Returns (AddRoute name pattern handler m r)
    else Panics (set_routes
                   (<[name := NewRoute name pattern handler m ∅]> (routes r)) r).
Proof.
  unfold AddRoute_call, admits, tryHandle, tryGroupHandle, tryAddRoute. simpl.
  by destruct (accepts _ _ _).
Qed.

Lemma addListedRoute_call_Returns group r route r' :
  addListedRoute_call group r route = Returns r' ->
  r' = addListedRoute group r route.
Proof.
  destruct group as [g|]; simpl.
  - unfold tryGroupHandle, tryAddRoute.
    destruct (accepts _ _ _); [|done]. by intros [= <-].
  - rewrite AddRoute_call_spec. destruct (admits _ _ _); [|done].
    by intros [= <-].
Qed.

Lemma registerAll_Returns e0 es :
  forall r r',
    basePath e0 = basePath (router r) ->
    Handlers e0 = Handlers (router r) ->
    registerAll e0 es r = Returns r' ->
    r' = registered es r.
Proof.
  induction es as [|[prefix route] rest IH]; intros r r' Hb Hh; simpl.
  - intros [= <-]. by rewrite registered_nil.
  - destruct (addListedRoute_call _ r route) as [r1|r1] eqn:Hcall; simpl; [|done].
    apply addListedRoute_call_Returns in Hcall.
    pose proof (addListedRoute_registered prefix (set_router e0 r) r route Hb Hh)
      as Hreg.
    change (router (set_router e0 r)) with e0 in Hreg.
    rewrite Hreg in Hcall. clear Hreg.
    subst r1. intros Hrest. apply IH in Hrest; [|done..].
    subst r'. by rewrite <- registered_app.
Qed.

Lemma registerAll_app e0 es1 es2 r :
  registerAll e0 (es1 ++ es2) r = thenCall (registerAll e0 es1 r) (registerAll e0 es2).
Proof.
  revert r. induction es1 as [|[prefix route] rest IH]; intros r; simpl; [done|].
  destruct (addListedRoute_call _ r route); simpl; [apply IH|done].
Qed.

Lemma registerAll_ext e1 e2 es r :
  basePath e1 = basePath e2 ->
  Handlers e1 = Handlers e2 ->
  registerAll e1 es r = registerAll e2 es r.
Proof.
  intros Hb Hh. revert r.
  induction es as [|[prefix route] rest IH]; intros r; simpl; [done|].
  unfold Group. rewrite Hb, Hh.
  destruct (addListedRoute_call _ r route); simpl; [apply IH|done].
Qed.

Lemma fold_thenCall_Panics {A} (f : A -> Router -> CallOutcome) (l : list A) r :
  fold_left (fun o x => thenCall o (f x)) l (Panics r) = Panics r.
Proof. induction l as [|x rest IH]; simpl; [done|apply IH]. Qed.

Lemma fold_addListedRoute_call e0 prefix routes :
  forall r,
    fold_left
      (fun o route =>
         thenCall o
           (fun r =>
              addListedRoute_call
                (if negb (String.eqb prefix "") then Some (Group e0 prefix) else None)
                r route))
      routes (Returns r)
    = registerAll e0 (map (fun route => (prefix, route)) routes) r.
Proof.
  induction routes as [|route rest IH]; intros r; simpl; [done|].
  destruct (addListedRoute_call _ r route) as [r1|r1]; simpl.
  - apply IH.
  - apply (fold_thenCall_Panics
             (fun route r => addListedRoute_call _ r route)).
Qed.

Lemma AddRouteList_call_registerAll l :
  forall r, AddRouteList_call l r = registerAll (router r) (flatten l) r.
Proof.
  induction l as [pattern routes children IH] using RouteList_nested_ind.
  intros r. simpl. rewrite fold_addListedRoute_call, registerAll_app.
  destruct (registerAll (router r) (map (fun route => (pattern, route)) routes) r)
    as [r1|r1] eqn:Hroutes; simpl; [|done].
  apply registerAll_Returns in Hroutes; [|done..].
  assert (Hb : basePath (router r) = basePath (router r1)) by by subst r1.
  assert (Hh : Handlers (router r) = Handlers (router r1)) by by subst r1.
  clear Hroutes. revert r1 Hb Hh.
  induction IH as [|child rest Hchild _ IHrest]; intros r1 Hb Hh; simpl; [done|].
  rewrite Hchild, registerAll_app.
  rewrite (registerAll_ext (router r1) (router r)) by done.
  destruct (registerAll (router r) (flatten child) r1) as [r2|r2] eqn:Hc; simpl.
  - apply registerAll_Returns in Hc; [|done..].
    apply IHrest; by subst r2.
  - apply (fold_thenCall_Panics AddRouteList_call).
Qed.

(** A list call that returns has made all its registrations. *)
Lemma AddRouteList_call_Returns l r r' :
  AddRouteList_call l r = Returns r' -> r' = AddRouteList l r.
Proof.
  rewrite AddRouteList_call_registerAll, AddRouteList_registered.
  by apply registerAll_Returns.
Qed.

Lemma AddMultiMethodsRoute_call_registerAll name pattern handler methods :
  forall r,
    AddMultiMethodsRoute_call name pattern handler methods r
    = registerAll (router r)
        (map (fun m => ("", NewRoute name pattern handler m ∅)) methods) r.
Proof.
  unfold AddMultiMethodsRoute_call.
  induction methods as [|m rest IH]; intros r; simpl; [done|].
  destruct (AddRoute_call name pattern handler m r) as [r1|r1] eqn:Hcall; simpl.
  - rewrite IH. apply registerAll_ext.
    + rewrite AddRoute_call_spec in Hcall.
      destruct (admits _ _ _); [|done]. by injection Hcall as <-.
    + rewrite AddRoute_call_spec in Hcall.
      destruct (admits _ _ _); [|done]. by injection Hcall as <-.
  - apply (fold_thenCall_Panics (AddRoute_call name pattern handler)).
Qed.

Lemma AddMultiMethodsRoute_call_Returns name pattern handler methods r r' :
  AddMultiMethodsRoute_call name pattern handler methods r = Returns r' ->
  r' = AddMultiMethodsRoute name pattern handler methods r.
Proof.
  rewrite AddMultiMethodsRoute_call_registerAll, AddMultiMethodsRoute_registered.
  by apply registerAll_Returns.
Qed.

(** *** The handler adapter, the other paths *)

(** X1. A handler of one parameter that takes the context is entered
    once, with the context alone: the wrapper is the handler. *)
Theorem createHandlerFunc_context_only
    (handler : Handler) (c : Context) (t0 : Ty) :
  handlerType handler = TFunc [t0] ->
  acceptsContext t0 = true ->
  createHandlerFunc handler c = handlerBody handler [VContext] (enter c).
Proof.
  intros Hty Hacc. unfold createHandlerFunc, Call. rewrite Hty. simpl.
  by rewrite Hacc.
Qed.

(** X2. A handler of two parameters, the second a pointer, on a request
    whose path parameters decode: the handler is entered once, with the
    context and a pointer to the decoded value, and nothing is written by
    the wrapper itself. *)
Theorem createHandlerFunc_decode_success
    (handler : Handler) (c : Context) (t0 paramElemType : Ty) (bound : Value) :
  handlerType handler = TFunc [t0; TPtr paramElemType] ->
  acceptsContext t0 = true ->
  ShouldBindUri c paramElemType (zero paramElemType) = Bound bound ->
  createHandlerFunc handler c
  = handlerBody handler [VContext; VPtr bound] (enter c).
Proof.
  intros Hty Hacc Hbind. unfold createHandlerFunc, Call. rewrite Hty. simpl.
  by rewrite Hbind, Hacc.
Qed.

(** X4. The panic for a second parameter that is no pointer happens when
    a request is dispatched, and the error middleware in front of the
    route does not turn it into a response: the chain panics with the
    adapter's message and no error handler runs. *)
Theorem ErrorHandlerMiddleware_passes_adapter_panic
    (r : Router) (handler : Handler) (c : Context) (t0 paramType : Ty) :
  handlerType handler = TFunc [t0; paramType] ->
  kindOf paramType <> KPtr ->
  runChain [ErrorHandlerMiddleware r; plain (createHandlerFunc handler)] c
  = Panicked ("Handler parameter must be a pointer to a struct, got "
              +:+ Kind_String (kindOf paramType)).
Proof.
  intros Hty Hk. simpl. unfold ErrorHandlerMiddleware, plain, createHandlerFunc.
  rewrite Hty. simpl. by rewrite bool_decide_eq_false_2.
Qed.

(** X5. A route added through [CreateRoute] always takes the decoding
    path, whatever the type argument is: its wrapper never calls the
    handler with the context alone and never raises the adapter's own
    panic; it answers 400 on a decode error and otherwise enters the
    handler with the context and the decoded value. *)
Theorem CreateRoute_handler_decodes
    (T : Ty) (name pattern : string) (body : list Value -> Context -> Outcome)
    (m : Method) (r : Router) (c : Context) :
  exists handler,
    routes (CreateRoute T name pattern body m r) !! name
    = Some (NewRoute name pattern handler m ∅)
    /\ createHandlerFunc handler c
       = match ShouldBindUri c T (zero T) with
         | BindError err => Returned (JSON 400 [("error", VString err)] c)
         | Bound bound => body [VContext; VPtr bound] (enter c)
         end.
Proof.
  eexists. split.
  - unfold CreateRoute, AddRoute. simpl. apply lookup_insert_eq.
  - unfold createHandlerFunc, Call. simpl.
    by destruct (ShouldBindUri c T (zero T)).
Qed.

(** *** Registration, the table and the registry *)

Lemma registered_endpoints es r :
  endpoints (trees (router (registered es r)))
  = endpoints (trees (router r))
    ++ map (fun pr => (Method_String (Route_method pr.2),
                       joinPaths (joinPaths (basePath (router r)) pr.1)
                         (Route_pattern pr.2)))
         es.
Proof.
  unfold endpoints, registered. simpl. by rewrite map_app, map_map.
Qed.





(** X9. In every router built through the methods of [router.go] the
    registry files each route under the route's own name. *)
Theorem Built_registry_keyed_by_name (r : Router) (key : string) (route : Route) :
  Built r ->
  routes r !! key = Some route ->
  Route_name route = key.
Proof.
  intros Hbuilt. destruct (Built_wellBuilt r Hbuilt) as (_ & _ & Hnames & _).
  apply Hnames.
Qed.

Lemma fold_record_same_name name pattern handler methods (m : gmap string Route) :
  fold_left record
    (map (fun v => ("", NewRoute name pattern handler v ∅)) methods) m !! name
  = match last methods with
    | Some v => Some (NewRoute name pattern handler v ∅)
    | None => m !! name
    end.
Proof.
  revert m. induction methods as [|v rest IH]; intros m; simpl; [done|].
  rewrite IH. destruct rest as [|v' rest'].
  - unfold record. simpl. apply lookup_insert_eq.
  - change (last (v :: v' :: rest')) with (last (v' :: rest')).
    destruct (last (v' :: rest')) eqn:Hlast; [done|].
    by apply last_None in Hlast.
Qed.

(** X12. [AddRoute] and [GenerateUrlByName] round-trip: right after
    [AddRoute] the URL of the added name is generated from the added
    pattern, and the URL (or the error) of every other name is what it
    was before. *)
Theorem GenerateUrlByName_after_AddRoute
    (r : Router) (name pattern other : string) (handler : Handler) (m : Method)
    (params : gmap string Value) :
  GenerateUrlByName (AddRoute name pattern handler m r) other params
  = if decide (other = name) then GenerateUrlByPattern pattern params
    else GenerateUrlByName r other params.
Proof.
  unfold GenerateUrlByName, AddRoute. simpl.
  destruct (decide (other = name)) as [->|Hne].
  - by rewrite lookup_insert_eq.
  - by rewrite lookup_insert_ne.
Qed.

(** *** Error handlers *)

(** X13. [SetErrorHandler] and the middleware compose: after
    [SetErrorHandler(status, handler)] a response that the chain leaves
    with that status, if it is 400 or more, is passed to [handler]. *)
Theorem SetErrorHandler_then_middleware
    (r : Router) (handler : ErrorHandlerFunc) (Next : Context -> Outcome)
    (c c' : Context) :
  Next c = Returned c' ->
  400 <= status c' ->
  ErrorHandlerMiddleware (SetErrorHandler (status c') handler r) Next c
  = handler c'.
Proof.
  intros HNext Hs. unfold ErrorHandlerMiddleware, bind. rewrite HNext.
  destruct (Z.leb_spec 400 (status c')); [|lia].
  unfold SetErrorHandler. simpl. by rewrite lookup_insert_eq.
Qed.

(** X14. Registering a handler for the same status twice leaves the
    router as if only the second registration had been made; this also
    holds for 404, where the no-route hook is replaced as well. *)
Theorem SetErrorHandler_overwrites
    (r : Router) (status : Z) (handler1 handler2 : ErrorHandlerFunc) :
  SetErrorHandler status handler2 (SetErrorHandler status handler1 r)
  = SetErrorHandler status handler2 r.
Proof.
  unfold SetErrorHandler. destruct (status =? 404); simpl;
    unfold set_errorHandlers, set_router; simpl; by rewrite insert_insert_eq.
Qed.

(** X15. A handler registered for a status below 400 is dead: the
    middleware behaves on every request as if it had not been
    registered. *)
Theorem SetErrorHandler_below_400_is_never_called
    (r : Router) (status : Z) (handler : ErrorHandlerFunc)
    (Next : Context -> Outcome) (c : Context) :
  status < 400 ->
  ErrorHandlerMiddleware (SetErrorHandler status handler r) Next c
  = ErrorHandlerMiddleware r Next c.
Proof.
  intros Hs. unfold ErrorHandlerMiddleware, bind.
  destruct (Next c) as [c'|msg]; [|done].
  destruct (Z.leb_spec 400 (Gin.status c')); [|done].
  unfold SetErrorHandler.
  destruct (Z.eqb_spec status 404); [lia|]. simpl.
  rewrite lookup_insert_ne by lia. done.
Qed.

(** X16. [SetDefaultErrorHandler] and the middleware compose: afterwards
    an error status without a handler of its own goes to the new default
    handler, and a status with a handler of its own still goes to that
    one. *)
Theorem SetDefaultErrorHandler_then_middleware
    (r : Router) (fallback : ErrorHandlerFunc) (Next : Context -> Outcome)
    (c c' : Context) :
  Next c = Returned c' ->
  400 <= status c' ->
  ErrorHandlerMiddleware (SetDefaultErrorHandler fallback r) Next c
  = match errorHandlers r !! status c' with
    | Some handler => handler c'
    | None => fallback c'
    end.
Proof.
  intros HNext Hs. unfold ErrorHandlerMiddleware, bind. rewrite HNext.
  by destruct (Z.leb_spec 400 (status c')); [|lia].
Qed.

(** X17. Who answers an unmatched request depends on the order of the
    calls until [Run]: [SetDefaultErrorHandler] called after
    [SetErrorHandler(404, handler)] takes the no-route hook away from the
    404 handler, although that handler stays registered for 404; [Run]
    gives the hook back to it. *)
Theorem SetDefaultErrorHandler_takes_hook_until_Run
    (r : Router) (handler fallback : ErrorHandlerFunc) :
  let r' := SetDefaultErrorHandler fallback (SetErrorHandler 404 handler r) in
  noRoute (router r') = [plain (fun cc => fallback cc)]
  /\ errorHandlers r' !! 404 = Some handler
  /\ noRoute (servingEngine r') = [plain (fun c => handler c)].
Proof.
  intros r'. subst r'. split; [reflexivity|]. split.
  - unfold SetDefaultErrorHandler, SetErrorHandler. simpl. apply lookup_insert_eq.
  - unfold servingEngine, Run, SetDefaultErrorHandler, SetErrorHandler. simpl.
    by rewrite lookup_insert_eq.
Qed.

(** X18. The default handler of a new router keeps the status it finds
    and adds its JSON object behind what the route handler has already
    written: it does not replace the response. *)
Theorem initial_default_handler_appends
    (r : Router) (Next : Context -> Outcome) (c c' : Context) :
  defaultHandler r = initialDefaultHandler ->
  Next c = Returned c' ->
  400 <= status c' ->
  errorHandlers r !! status c' = None ->
  exists c'',
    ErrorHandlerMiddleware r Next c = Returned c''
    /\ status c'' = status c'
    /\ body c''
       = body c'
         ++ [ChunkJSON [("error", VString "An error occurred");
                        ("description",
                         VString "No specific handler defined for this status")]].
Proof.
  intros Hdefault HNext Hs Hnone. unfold ErrorHandlerMiddleware, bind.
  rewrite HNext, Hnone, Hdefault.
  destruct (Z.leb_spec 400 (status c')); [|lia].
  eexists. split; [reflexivity|].
  unfold JSON, WriteHeader, bodyAllowedForStatus.
  rewrite Z.eqb_refl, andb_false_r. simpl.
  destruct (Z.leb_spec 100 (status c')); [|lia].
  destruct (Z.leb_spec (status c') 199); [lia|].
  destruct (Z.eqb_spec (status c') 204); [lia|].
  destruct (Z.eqb_spec (status c') 304); [lia|].
  done.
Qed.

(** X20. During [Run] the no-route chain is the middleware followed by
    the 404 handler. For an unmatched request the handler runs as the
    hook, and when it leaves the status at 404 the middleware finds it
    registered for 404 and runs it a second time on the response it has
    just produced. *)
Theorem Run_calls_404_handler_twice
    (r : Router) (handler : ErrorHandlerFunc) (c c1 : Context) :
  Handlers (router r) = [] ->
  handler c = Returned c1 ->
  status c1 = 404 ->
  runChain (allNoRoute (servingEngine (SetErrorHandler 404 handler r))) c
  = handler c1.
Proof.
  intros Hh Hc Hs.
  unfold servingEngine, Run, SetErrorHandler. simpl.
  rewrite lookup_insert_eq. simpl. rewrite Hh. simpl.
  unfold ErrorHandlerMiddleware, plain, bind. rewrite Hc, Hs. simpl.
  by rewrite lookup_insert_eq.
Qed.

(** *** Registration calls that the engine accepts or rejects *)

(** When the engine rejects the registration, [AddRoute] panics: it does
    not return its receiver. The registry entry has been written by
    then, the table is as before. *)
Lemma Ref_AddRoute_rejected
    (σ : gmap ptr Router) (r : ptr) (R : Router) (name pattern : string)
    (handler : Handler) (m : Method) :
  σ !! r = Some R ->
  admits R m pattern = false ->
  exists R',
    Ref_AddRoute r name pattern handler m σ = RefPanics (<[r := R']> σ)
    /\ routes R' !! name = Some (NewRoute name pattern handler m ∅)
    /\ trees (router R') = trees (router R).
Proof.
  intros HR Hno. unfold Ref_AddRoute, method_call.
  rewrite HR, AddRoute_call_spec, Hno.
  eexists. split; [reflexivity|]. split; [|reflexivity].
  simpl. apply lookup_insert_eq.
Qed.

(** C7 as the code has it. Two successive [AddRoute] calls on the router
    at [r] with the same name, both accepted by the engine: each returns
    [r] itself, and afterwards the registry maps the name to exactly the
    Route of the later call. This holds whatever the two patterns are,
    so also when they differ. *)
Theorem AddRoute_last_write_wins_when_accepted
    (σ : gmap ptr Router) (r : ptr) (R : Router) (name pattern1 pattern2 : string)
    (handler1 handler2 : Handler) (method1 method2 : Method) :
  σ !! r = Some R ->
  admits R method1 pattern1 = true ->
  admits (AddRoute name pattern1 handler1 method1 R) method2 pattern2 = true ->
  exists σ1 σ2 R2,
    Ref_AddRoute r name pattern1 handler1 method1 σ = RefReturns r σ1
    /\ Ref_AddRoute r name pattern2 handler2 method2 σ1 = RefReturns r σ2
    /\ σ2 !! r = Some R2
    /\ routes R2 !! name = Some (NewRoute name pattern2 handler2 method2 ∅)
    /\ Route_pattern (NewRoute name pattern2 handler2 method2 ∅) = pattern2.
Proof.
  intros HR H1 H2. unfold Ref_AddRoute, method_call.
  rewrite HR, AddRoute_call_spec, H1.
  eexists _, _, _. split; [reflexivity|].
  rewrite lookup_insert_eq, AddRoute_call_spec, H2. split; [reflexivity|].
  rewrite lookup_insert_eq. split; [reflexivity|].
  split; [|reflexivity].
  unfold AddRoute. simpl. apply lookup_insert_eq.
Qed.


(** C6 as the code has it. [Run] returns no value and prints nothing of
    its own; the state it leaves does not depend on the listener's
    error. So the error reaches the caller only through what gin itself
    prints: in debug mode gin's [Run] prints the error before it
    returns, outside debug mode nothing is printed and the error is
    dropped. *)
Theorem Run_surfaces_error_only_in_debug_mode
    (addr : string) (listen : string -> string) (r : Router) :
  In ("[GIN-debug] [ERROR] " +:+ listen addr) (Run addr (ginRun true listen) r).2
  /\ (Run addr (ginRun false listen) r).2 = []
  /\ forall debugging,
       (Run addr (ginRun debugging listen) r).1 = set_router (servingEngine r) r.
Proof.
  split; [|split].
  - rewrite Run_result. simpl. do 3 right. by left.
  - by rewrite Run_result.
  - intros debugging. by rewrite Run_result.
Qed.

(** X3. A handler that is no function, or a function of no parameter or
    of three and more, or a function of one parameter that cannot take
    the context: the wrapper ends, on every request and whatever the
    body of the handler is, in the panic that [reflect.Value.Call]
    raises for it. The test at the head of [createHandlerFunc] sends all
    of them down the one-argument call. *)
Theorem createHandlerFunc_unusable_handler_panics
    (handler : Handler) (c : Context) :
  (kindOf (handlerType handler) <> KFunc ->
   createHandlerFunc handler c
   = Panicked "reflect: call of reflect.Value.Call on a value that is no Func")
  /\ (handlerType handler = TFunc [] ->
      createHandlerFunc handler c
      = Panicked "reflect: Call with too many input arguments")
  /\ (forall ins,
        handlerType handler = TFunc ins -> (3 <= length ins)%nat ->
        createHandlerFunc handler c
        = Panicked "reflect: Call with too few input arguments")
  /\ (forall t0,
        handlerType handler = TFunc [t0] -> acceptsContext t0 = false ->
        createHandlerFunc handler c
        = Panicked "reflect: Call using *gin.Context as another type").
Proof.
  unfold createHandlerFunc, Call. repeat split.
  - intros Hk. by destruct (handlerType handler).
  - by intros ->.
  - intros ins -> Hlen. destruct ins as [|a [|b [|d rest]]]; simpl in *; [lia..|done].
  - intros t0 -> Hacc. simpl. by rewrite Hacc.
Qed.

(** X6. An [AddRouteList] call that returns has appended to the engine's
    table one entry per route of the tree, a list's own routes first and
    then its children in order; each entry has the route's verb and, as
    path, the engine's base path joined with the prefix of the list that
    owns the route (and of no other list) and with the route's pattern.
    Entries already in the table stay. *)
Theorem AddRouteList_table (l : RouteList) (r r' : Router) :
  AddRouteList_call l r = Returns r' ->
  endpoints (trees (router r'))
  = endpoints (trees (router r))
    ++ map (fun pr => (Method_String (Route_method pr.2),
                       joinPaths (joinPaths (basePath (router r)) pr.1)
                         (Route_pattern pr.2)))
         (flatten l).
Proof.
  intros Hcall. apply AddRouteList_call_Returns in Hcall. subst r'.
  rewrite AddRouteList_registered. apply registered_endpoints.
Qed.

(** X10. [AddRoute] only ever appends to the engine's table. After two
    calls with the same name that the engine accepts, the registry knows
    the later route alone, but the table still has the entry of the
    earlier one: the earlier pattern stays routed. *)
Theorem AddRoute_keeps_earlier_registration
    (r r1 r2 : Router) (name pattern1 pattern2 : string)
    (handler1 handler2 : Handler) (method1 method2 : Method) :
  AddRoute_call name pattern1 handler1 method1 r = Returns r1 ->
  AddRoute_call name pattern2 handler2 method2 r1 = Returns r2 ->
  endpoints (trees (router r2))
  = endpoints (trees (router r))
    ++ [(Method_String method1, joinPaths (basePath (router r)) pattern1);
        (Method_String method2, joinPaths (basePath (router r)) pattern2)]
  /\ routes r2 !! name = Some (NewRoute name pattern2 handler2 method2 ∅).
Proof.
  rewrite !AddRoute_call_spec.
  destruct (admits r _ _); [|done]. intros [= <-].
  destruct (admits _ _ _); [|done]. intros [= <-]. split.
  - unfold AddRoute, Handle, groupHandle, addRoute, endpoints. simpl.
    by rewrite <- app_assoc, map_app.
  - unfold AddRoute. simpl. apply lookup_insert_eq.
Qed.

(** X11. An [AddMultiMethodsRoute] call that returns has put one entry
    per listed verb in the table, in order and all under the same path,
    but one entry in the registry: the route with the last verb of the
    list. With an empty list of verbs nothing is registered at all, and
    the name stays as unknown to the registry as it was. *)
Theorem AddMultiMethodsRoute_table_and_registry
    (r r' : Router) (name pattern : string) (handler : Handler)
    (methods : list Method) :
  AddMultiMethodsRoute_call name pattern handler methods r = Returns r' ->
  endpoints (trees (router r'))
  = endpoints (trees (router r))
    ++ map (fun v => (Method_String v, joinPaths (basePath (router r)) pattern))
         methods
  /\ routes r' !! name
     = match last methods with
       | Some v => Some (NewRoute name pattern handler v ∅)
       | None => routes r !! name
       end.
Proof.
  intros Hcall. apply AddMultiMethodsRoute_call_Returns in Hcall. subst r'.
  rewrite AddMultiMethodsRoute_registered. split.
  - unfold endpoints, registered. simpl. by rewrite map_app, !map_map.
  - unfold registered. simpl. apply fold_record_same_name.
Qed.

(** X19. [Run] installs the middleware with [Use] after the routes have
    been registered, and the engine's table keeps the chains it was
    given. For a route that [AddRoute] added to a router whose engine
    had no middleware, the table of the serving engine holds, as last
    entry, the route with a chain of one element, the wrapper of its
    handler, although the engine then has the error middleware: the
    middleware is not in the route's chain. *)
Theorem Run_leaves_registered_chains
    (r r' : Router) (name pattern : string) (handler : Handler) (m : Method) :
  Handlers (router r) = [] ->
  AddRoute_call name pattern handler m r = Returns r' ->
  trees (servingEngine r')
  = trees (router r)
    ++ [{| ri_method := Method_String m;
           ri_path := joinPaths (basePath (router r)) pattern;
           ri_handlers := [plain (createHandlerFunc handler)] |}]
  /\ Handlers (servingEngine r') = [ErrorHandlerMiddleware r'].
Proof.
  intros Hh. rewrite AddRoute_call_spec.
  destruct (admits r _ _); [|done]. intros [= <-].
  unfold servingEngine, Run, AddRoute, Handle, groupHandle, addRoute. simpl.
  rewrite Hh. by destruct (errorHandlers r !! 404).
Qed.

End WithCollaborators.

(* ===================================================================== *)
(** ** The properties on concrete routers                                 *)
(* ===================================================================== *)

(** The route list of the repository's test: a root list without prefix,
    a child list "/v1", the same handler under both. *)
Definition productRoute (name : string) : Route :=
  NewRoute name "/:locale/products/:id" productDetailHandler Get ∅.

Definition testList : RouteList :=
  mkRouteList "" [productRoute "product"]
    [mkRouteList "/v1" [productRoute "product:v1"] []].

Definition productParams : gmap string Value :=
  <["locale" := VString "cs"]> (<["id" := VInt 42]> ∅).

Example testList_table :
  map ri_path (trees (router (AddRouteList bindUri testList NewRouter)))
  = ["/:locale/products/:id"; "/v1/:locale/products/:id"].
Proof. vm_compute. reflexivity. Qed.

Example productDetailHandler_decodes :
  createHandlerFunc bindUri productDetailHandler
    (newContext [("locale", "cs"); ("id", "42")])
  = Returned {| Params := [("locale", "cs"); ("id", "42")];
                status := 200; written := true;
                body := [ChunkJSON [("locale", VString "cs"); ("id", VInt 42)]];
                handlerCalls := 1 |}.
Proof. vm_compute. reflexivity. Qed.

Example productDetailHandler_conversion_failure :
  createHandlerFunc bindUri productDetailHandler
    (newContext [("locale", "cs"); ("id", "x")])
  = Returned {| Params := [("locale", "cs"); ("id", "x")];
                status := 400; written := true;
                body := [ChunkJSON [("error",
                           VString (parseError "ParseInt" "x" "invalid syntax"))]];
                handlerCalls := 0 |}.
Proof. vm_compute. reflexivity. Qed.

(** The URL of the route under "/v1" is built without "/v1". *)
Example testList_url :
  GenerateUrlByName sprint (AddRouteList bindUri testList NewRouter)
    "product:v1" productParams
  = ("/cs/products/42", None).
Proof. vm_compute. reflexivity. Qed.

Example tokenize_product :
  placeholders "/:locale/products/:id" = ["locale"; "id"].
Proof. vm_compute. reflexivity. Qed.

(** C3 on the test's handler, for a request without the segment [id]. *)
Lemma createHandlerFunc_decode_failure_witness :
  let c := newContext [("locale", "cs")] in
  let err := "Field validation for 'ID' failed on the 'required' tag" in
  let c' := JSON 400 [("error", VString err)] c in
  createHandlerFunc bindUri productDetailHandler c = Returned c'
  /\ handlerCalls c' = handlerCalls c
  /\ (written c = false ->
      status c' = 400 /\ body c' = body c ++ [ChunkJSON [("error", VString err)]]).
Proof.
  intros c err.
  apply (createHandlerFunc_decode_failure bindUri productDetailHandler c
           (TPtr TContext)
           [ {| fieldName := "Locale"; fieldTy := FString; uriTag := "locale"; required := true |};
             {| fieldName := "ID"; fieldTy := FInt; uriTag := "id"; required := true |} ]
           err).
  - reflexivity.
  - vm_compute. reflexivity.
Defined.

(** The middleware on a router with a handler for 500, in front of a
    route handler that answers 500. *)
Lemma ErrorHandlerMiddleware_dispatch_witness :
  let custom500 : ErrorHandlerFunc :=
    fun c => Returned (JSON 500 [("error", VString "Custom 500")] c) in
  let r := SetErrorHandler 500 custom500 NewRouter in
  let Next : ErrorHandlerFunc :=
    fun c => Returned (JSON 500 [("error", VString "boom")] c) in
  let c := newContext [] in
  let c' := JSON 500 [("error", VString "boom")] c in
  Next c = Returned c'
  /\ ErrorHandlerMiddleware r Next c = custom500 c'.
Proof.
  intros custom500 r Next c c'.
  split; [reflexivity|].
  apply (proj1 (ErrorHandlerMiddleware_dispatch r Next c c' eq_refl)).
  - vm_compute. discriminate.
  - reflexivity.
Defined.

(** C9 on a fresh router. *)
Lemma GenerateUrlByName_unknown_name_witness :
  routes NewRouter !! "missing" = None
  /\ GenerateUrlByName sprint NewRouter "missing" productParams
     = ("", Some "route with name missing not found").
Proof.
  split; [reflexivity|].
  apply (GenerateUrlByName_unknown_name sprint NewRouter "missing" productParams).
  reflexivity.
Defined.

(** C2 on the test's route and parameters. *)
Lemma GenerateUrlByName_replaces_placeholders_witness :
  let r := AddRoute bindUri "product" "/:locale/products/:id"
             productDetailHandler Get NewRouter in
  routes r !! "product" = Some (productRoute "product")
  /\ exists url,
       GenerateUrlByName sprint r "product" productParams = (url, None)
       /\ Replaced sprint productParams (tokenize "/:locale/products/:id") url
       /\ untokenize (tokenize "/:locale/products/:id") = "/:locale/products/:id".
Proof.
  intros r. split; [reflexivity|].
  apply (GenerateUrlByName_replaces_placeholders sprint r "product"
           (productRoute "product") productParams).
  - reflexivity.
  - intros x Hx. vm_compute in Hx.
    destruct Hx as [<-|[<-|[]]]; eexists; reflexivity.
Defined.

(** C6 as stated fails. The listener fails on ":8080" once with one
    error and once with another, gin not being in debug mode; [Run]
    gives its caller the same in both cases, so nothing the caller does
    with it tells which error occurred: neither error has been returned
    or logged. *)
Lemma Run_surfaces_error_counterexample :
  let inUse := "bind: address already in use" in
  let denied := "bind: permission denied" in
  ~ exists observe : Router * list string -> option string,
      observe (Run ":8080" (ginRun false (fun _ => inUse)) NewRouter) = Some inUse
      /\ observe (Run ":8080" (ginRun false (fun _ => denied)) NewRouter) = Some denied.
Proof.
  intros inUse denied [observe [HinUse Hdenied]].
  rewrite Run_result in HinUse. rewrite Run_result in Hdenied.
  simpl in HinUse, Hdenied. rewrite HinUse in Hdenied. discriminate Hdenied.
Qed.

(* ===================================================================== *)
(** ** The further properties on concrete routers                         *)
(* ===================================================================== *)

(** The context-only handler of the repository's tests. *)
Definition okHandler : Handler :=
  {| handlerType := TFunc [TPtr TContext];
     handlerBody := fun _ c =>
       Returned (JSON 200 [("message", VString "This is OK")] c) |}.

Definition custom500 : ErrorHandlerFunc :=
  fun c => Returned (JSON 500 [("error", VString "Custom 500")] c).

Definition serverError : Context -> Outcome :=
  fun c => Returned (JSON 500 [("error", VString "boom")] c).

Definition notFoundHandler : ErrorHandlerFunc :=
  fun c => Returned (JSON 404 [("error", VString "Custom 404")] c).

(** X1 on the test's context-only handler. *)
Lemma createHandlerFunc_context_only_witness :
  handlerType okHandler = TFunc [TPtr TContext]
  /\ acceptsContext (TPtr TContext) = true
  /\ createHandlerFunc bindUri okHandler (newContext [])
     = handlerBody okHandler [VContext] (enter (newContext [])).
Proof.
  split; [reflexivity|]. split; [reflexivity|].
  apply (createHandlerFunc_context_only bindUri okHandler (newContext [])
           (TPtr TContext)); reflexivity.
Defined.

(** X2 on the test's request "/cs/products/42". *)
Lemma createHandlerFunc_decode_success_witness :
  let c := newContext [("locale", "cs"); ("id", "42")] in
  let bound := VStruct [("Locale", VString "cs"); ("ID", VInt 42)] in
  bindUri c ProductDetailParams (zero ProductDetailParams) = Bound bound
  /\ createHandlerFunc bindUri productDetailHandler c
     = handlerBody productDetailHandler [VContext; VPtr bound] (enter c).
Proof.
  intros c bound. split; [vm_compute; reflexivity|].
  apply (createHandlerFunc_decode_success bindUri productDetailHandler c
           (TPtr TContext) ProductDetailParams bound).
  - reflexivity.
  - reflexivity.
  - vm_compute. reflexivity.
Defined.

(** X4 on a handler whose second parameter is an [int]. *)
Lemma ErrorHandlerMiddleware_passes_adapter_panic_witness :
  let handler :=
    {| handlerType := TFunc [TPtr TContext; TInt];
       handlerBody := fun _ c => Returned c |} in
  kindOf TInt <> KPtr
  /\ runChain [ErrorHandlerMiddleware NewRouter;
               plain (createHandlerFunc bindUri handler)] (newContext [])
     = Panicked "Handler parameter must be a pointer to a struct, got int".
Proof.
  intros handler. split; [discriminate|].
  apply (ErrorHandlerMiddleware_passes_adapter_panic bindUri NewRouter handler
           (newContext []) (TPtr TContext) TInt).
  - reflexivity.
  - discriminate.
Defined.



(** X9 on the router of the test. *)
Lemma Built_registry_keyed_by_name_witness :
  let r := AddRouteList bindUri testList NewRouter in
  Built bindUri r
  /\ routes r !! "product:v1" = Some (productRoute "product:v1")
  /\ Route_name (productRoute "product:v1") = "product:v1".
Proof.
  intros r.
  assert (Hbuilt : Built bindUri r)
    by (apply Built_AddRouteList, Built_NewRouter).
  assert (Hlookup : routes r !! "product:v1" = Some (productRoute "product:v1"))
    by reflexivity.
  split; [exact Hbuilt|]. split; [exact Hlookup|].
  apply (Built_registry_keyed_by_name bindUri r "product:v1"
           (productRoute "product:v1") Hbuilt Hlookup).
Defined.

(** X13 on a route handler that answers 500. *)
Lemma SetErrorHandler_then_middleware_witness :
  let c := newContext [] in
  let c' := JSON 500 [("error", VString "boom")] c in
  serverError c = Returned c'
  /\ 400 <= status c'
  /\ ErrorHandlerMiddleware (SetErrorHandler 500 custom500 NewRouter) serverError c
     = custom500 c'.
Proof.
  intros c c'. split; [reflexivity|]. split; [vm_compute; discriminate|].
  apply (SetErrorHandler_then_middleware NewRouter custom500 serverError c c').
  - reflexivity.
  - vm_compute. discriminate.
Defined.

(** X15 on a handler registered for 200. *)
Lemma SetErrorHandler_below_400_is_never_called_witness :
  200 < 400
  /\ ErrorHandlerMiddleware (SetErrorHandler 200 custom500 NewRouter) serverError
       (newContext [])
     = ErrorHandlerMiddleware NewRouter serverError (newContext []).
Proof.
  split; [lia|].
  apply (SetErrorHandler_below_400_is_never_called NewRouter 200 custom500
           serverError (newContext [])).
  lia.
Defined.

(** X16 on a fresh router with a new default handler. *)
Lemma SetDefaultErrorHandler_then_middleware_witness :
  let c := newContext [] in
  let c' := JSON 500 [("error", VString "boom")] c in
  serverError c = Returned c'
  /\ 400 <= status c'
  /\ ErrorHandlerMiddleware (SetDefaultErrorHandler custom500 NewRouter) serverError c
     = match errorHandlers NewRouter !! status c' with
       | Some handler => handler c'
       | None => custom500 c'
       end.
Proof.
  intros c c'. split; [reflexivity|]. split; [vm_compute; discriminate|].
  apply (SetDefaultErrorHandler_then_middleware NewRouter custom500 serverError c c').
  - reflexivity.
  - vm_compute. discriminate.
Defined.

(** X18 on a fresh router behind a route handler that answers 500. *)
Lemma initial_default_handler_appends_witness :
  let c := newContext [] in
  let c' := JSON 500 [("error", VString "boom")] c in
  exists c'',
    ErrorHandlerMiddleware NewRouter serverError c = Returned c''
    /\ status c'' = status c'
    /\ body c''
       = body c'
         ++ [ChunkJSON [("error", VString "An error occurred");
                        ("description",
                         VString "No specific handler defined for this status")]].
Proof.
  intros c c'.
  apply (initial_default_handler_appends NewRouter serverError c c').
  - reflexivity.
  - reflexivity.
  - vm_compute. discriminate.
  - reflexivity.
Defined.

(** X20 on a fresh router with the test's 404 handler. *)
Lemma Run_calls_404_handler_twice_witness :
  let c := newContext [] in
  let c1 := JSON 404 [("error", VString "Custom 404")] c in
  Handlers (router NewRouter) = []
  /\ notFoundHandler c = Returned c1
  /\ status c1 = 404
  /\ runChain (allNoRoute (servingEngine (SetErrorHandler 404 notFoundHandler NewRouter))) c
     = notFoundHandler c1.
Proof.
  intros c c1. split; [reflexivity|]. split; [reflexivity|]. split; [reflexivity|].
  apply (Run_calls_404_handler_twice NewRouter notFoundHandler c c1); reflexivity.
Defined.

(* ===================================================================== *)
(** ** Registration against gin's verdict, on concrete routers            *)
(* ===================================================================== *)

Definition heap1 : gmap ptr Router := {[1%positive := NewRouter]}.

(** C7 on a heap with one fresh router: two patterns that gin accepts
    one after the other. *)
Lemma AddRoute_last_write_wins_when_accepted_witness :
  heap1 !! 1%positive = Some NewRouter
  /\ admits ginAccepts NewRouter Get "/users/:id" = true
  /\ admits ginAccepts
       (AddRoute bindUri "user:detail" "/users/:id" productDetailHandler Get NewRouter)
       Post "/members/:id" = true
  /\ exists σ1 σ2 R2,
       Ref_AddRoute bindUri ginAccepts 1%positive "user:detail" "/users/:id"
         productDetailHandler Get heap1
       = RefReturns 1%positive σ1
       /\ Ref_AddRoute bindUri ginAccepts 1%positive "user:detail" "/members/:id"
            productDetailHandler Post σ1
          = RefReturns 1%positive σ2
       /\ σ2 !! 1%positive = Some R2
       /\ routes R2 !! "user:detail"
          = Some (NewRoute "user:detail" "/members/:id" productDetailHandler Post ∅)
       /\ Route_pattern
            (NewRoute "user:detail" "/members/:id" productDetailHandler Post ∅)
          = "/members/:id".
Proof.
  split; [reflexivity|]. split; [reflexivity|]. split; [reflexivity|].
  apply (AddRoute_last_write_wins_when_accepted bindUri ginAccepts heap1 1%positive
           NewRouter); reflexivity.
Defined.

(** C7 as stated fails. After "/users/:id" has been registered for GET
    under a name, [AddRoute] with the same name, the same verb and the
    different pattern "/users/:name" is rejected by gin, whose table
    cannot hold two wildcards at one place: the call panics and does not
    return the router. The registry entry has been overwritten by
    then. *)
Lemma AddRoute_returns_counterexample :
  let R1 := AddRoute bindUri "user:detail" "/users/:id" productDetailHandler Get
              NewRouter in
  let σ1 := <[1%positive := R1]> heap1 in
  let R2 := set_routes
              (<["user:detail" :=
                   NewRoute "user:detail" "/users/:name" productDetailHandler Get ∅]>
                 (routes R1)) R1 in
  Ref_AddRoute bindUri ginAccepts 1%positive "user:detail" "/users/:id"
    productDetailHandler Get heap1
  = RefReturns 1%positive σ1
  /\ admits ginAccepts R1 Get "/users/:name" = false
  /\ Ref_AddRoute bindUri ginAccepts 1%positive "user:detail" "/users/:name"
       productDetailHandler Get σ1
     = RefPanics (<[1%positive := R2]> σ1)
  /\ (forall σ2,
        Ref_AddRoute bindUri ginAccepts 1%positive "user:detail" "/users/:name"
          productDetailHandler Get σ1
        <> RefReturns 1%positive σ2)
  /\ routes R2 !! "user:detail"
     = Some (NewRoute "user:detail" "/users/:name" productDetailHandler Get ∅)
  /\ endpoints (trees (router R2)) = [("GET", "/users/:id")].
Proof.
  intros R1 σ1 R2.
  assert (Hpanics :
    Ref_AddRoute bindUri ginAccepts 1%positive "user:detail" "/users/:name"
      productDetailHandler Get σ1
    = RefPanics (<[1%positive := R2]> σ1)).
  { unfold Ref_AddRoute, method_call. subst σ1.
    rewrite lookup_insert_eq, AddRoute_call_spec. reflexivity. }
  split; [reflexivity|]. split; [reflexivity|]. split; [exact Hpanics|]. split.
  - intros σ2 Hreturns. rewrite Hpanics in Hreturns. discriminate Hreturns.
  - split; reflexivity.
Qed.



(** C4, where the code departs from it. A handler is registered for 500
    and then a route whose handler answers 500; [Run] follows. The
    serving engine has the error middleware, but [Use] came after the
    registration and the route's chain is the wrapped handler alone: the
    request ends with the body the route handler wrote, and the handler
    for 500 has not run. With the middleware in front of the route, as
    the claim has it, the handler for 500 would have written after the
    route handler. *)
Theorem Run_installs_middleware_after_registration :
  let failing :=
    {| handlerType := TFunc [TPtr TContext];
       handlerBody := fun _ c => Returned (JSON 500 [("error", VString "boom")] c) |} in
  let r0 := SetErrorHandler 500 custom500 NewRouter in
  let r := AddRoute bindUri "servererror" "/servererror" failing Get r0 in
  let answer (o : Outcome) : Z * list Chunk :=
    match o with Returned c => (status c, body c) | Panicked _ => (0, []) end in
  AddRoute_call bindUri ginAccepts "servererror" "/servererror" failing Get r0
  = Returns r
  /\ Handlers (servingEngine r) = [ErrorHandlerMiddleware r]
  /\ map ri_handlers (trees (servingEngine r))
     = [[plain (createHandlerFunc bindUri failing)]]
  /\ answer (ServeHTTP (servingEngine r) "GET" "/servererror")
     = (500, [ChunkJSON [("error", VString "boom")]])
  /\ answer (runChain
               (Handlers (servingEngine r)
                ++ [plain (createHandlerFunc bindUri failing)])
               (newContext []))
     = (500, [ChunkJSON [("error", VString "boom")];
              ChunkJSON [("error", VString "Custom 500")]]).
Proof.
  intros failing r0 r answer. repeat split; reflexivity.
Qed.

(** X6 on the test's list. *)
Lemma AddRouteList_table_witness :
  let r' := AddRouteList bindUri testList NewRouter in
  AddRouteList_call bindUri ginAccepts testList NewRouter = Returns r'
  /\ endpoints (trees (router r'))
     = [("GET", "/:locale/products/:id"); ("GET", "/v1/:locale/products/:id")].
Proof.
  intros r'.
  assert (Hcall : AddRouteList_call bindUri ginAccepts testList NewRouter = Returns r')
    by reflexivity.
  split; [exact Hcall|].
  rewrite (AddRouteList_table bindUri ginAccepts testList NewRouter r' Hcall).
  reflexivity.
Defined.

(** X10 on a fresh router: the same name under two patterns. *)
Lemma AddRoute_keeps_earlier_registration_witness :
  let r1 := AddRoute bindUri "user:detail" "/users/:id" productDetailHandler Get
              NewRouter in
  let r2 := AddRoute bindUri "user:detail" "/members/:id" productDetailHandler Post
              r1 in
  AddRoute_call bindUri ginAccepts "user:detail" "/users/:id" productDetailHandler
    Get NewRouter = Returns r1
  /\ AddRoute_call bindUri ginAccepts "user:detail" "/members/:id"
       productDetailHandler Post r1 = Returns r2
  /\ endpoints (trees (router r2))
     = [("GET", "/users/:id"); ("POST", "/members/:id")]
  /\ routes r2 !! "user:detail"
     = Some (NewRoute "user:detail" "/members/:id" productDetailHandler Post ∅).
Proof.
  intros r1 r2.
  assert (H1 : AddRoute_call bindUri ginAccepts "user:detail" "/users/:id"
                 productDetailHandler Get NewRouter = Returns r1) by reflexivity.
  assert (H2 : AddRoute_call bindUri ginAccepts "user:detail" "/members/:id"
                 productDetailHandler Post r1 = Returns r2) by reflexivity.
  destruct (AddRoute_keeps_earlier_registration bindUri ginAccepts NewRouter r1 r2
              "user:detail" "/users/:id" "/members/:id" productDetailHandler
              productDetailHandler Get Post H1 H2) as [Htable Hreg].
  split; [exact H1|]. split; [exact H2|]. split; [|exact Hreg].
  rewrite Htable. reflexivity.
Defined.

(** X11 on a fresh router, for GET and POST. *)
Lemma AddMultiMethodsRoute_table_and_registry_witness :
  let r' := AddMultiMethodsRoute bindUri "user:detail" "/users/:id"
              productDetailHandler [Get; Post] NewRouter in
  AddMultiMethodsRoute_call bindUri ginAccepts "user:detail" "/users/:id"
    productDetailHandler [Get; Post] NewRouter = Returns r'
  /\ endpoints (trees (router r')) = [("GET", "/users/:id"); ("POST", "/users/:id")]
  /\ routes r' !! "user:detail"
     = Some (NewRoute "user:detail" "/users/:id" productDetailHandler Post ∅).
Proof.
  intros r'.
  assert (Hcall : AddMultiMethodsRoute_call bindUri ginAccepts "user:detail"
                    "/users/:id" productDetailHandler [Get; Post] NewRouter
                  = Returns r') by reflexivity.
  destruct (AddMultiMethodsRoute_table_and_registry bindUri ginAccepts NewRouter r'
              "user:detail" "/users/:id" productDetailHandler [Get; Post] Hcall)
    as [Htable Hreg].
  split; [exact Hcall|]. split; [|exact Hreg].
  rewrite Htable. reflexivity.
Defined.

(** X19 on a router with a handler for 500 and one route. *)
Lemma Run_leaves_registered_chains_witness :
  let r0 := SetErrorHandler 500 custom500 NewRouter in
  let r := AddRoute bindUri "product" "/:locale/products/:id" productDetailHandler
             Get r0 in
  Handlers (router r0) = []
  /\ AddRoute_call bindUri ginAccepts "product" "/:locale/products/:id"
       productDetailHandler Get r0 = Returns r
  /\ trees (servingEngine r)
     = [{| ri_method := "GET";
           ri_path := "/:locale/products/:id";
           ri_handlers := [plain (createHandlerFunc bindUri productDetailHandler)] |}]
  /\ Handlers (servingEngine r) = [ErrorHandlerMiddleware r].
Proof.
  intros r0 r.
  assert (Hcall : AddRoute_call bindUri ginAccepts "product" "/:locale/products/:id"
                    productDetailHandler Get r0 = Returns r) by reflexivity.
  destruct (Run_leaves_registered_chains bindUri ginAccepts r0 r "product"
              "/:locale/products/:id" productDetailHandler Get eq_refl Hcall)
    as [Htable Hmw].
  split; [reflexivity|]. split; [exact Hcall|]. split; [|exact Hmw].
  rewrite Htable. reflexivity.
Defined.
